(** * Clock / reset generator of the ZCU104 target ([_CRG] in
    [litex_boards/community/targets/zcu104.py])

    The [_CRG] module is a Migen hardware description.  Its behaviour is
    embedded here as a transition system: the registers written by the two
    synchronous blocks ([self.sync.clk200], [self.sync.ic]) are the fields of
    a state record, a rising edge of a clock is an event, and the
    asynchronous inputs ([cpu_reset], [pll.locked], the [RDY] output of
    [IDELAYCTRL]) change through events of their own.  The two clocks are
    unrelated, so a run is any interleaving of these events; the
    asynchronous presets of the reset synchronizers are applied after every
    event. *)

From Stdlib Require Import ZArith Bool List Lia.
Import ListNotations.
Local Open Scope Z_scope.

(** ** Migen primitives used by [_CRG] *)

Module Migen.

(** [Signal(max=64)]: a 6-bit register; an assignment keeps the low six
    bits of the assigned value. *)
Definition counter_width : Z := 6.
Definition wrap (v : Z) : Z := v mod 2 ^ counter_width.
Arguments wrap : simpl never.

(** [AsyncResetSynchronizer(cd, async_reset)] as lowered for Xilinx
    devices: two [FDPE] flip-flops clocked by [cd.clk], both with
    [INIT=1] and [PRE=async_reset]; the first has [D=0] and drives
    [rst_meta], the second has [D=rst_meta] and drives [cd.rst]. *)
Record ars : Type := mk_ars { rst_meta : bool; rst : bool }.

Definition ars_init : ars := mk_ars true true.

(** Asynchronous preset: while [async_reset] is high both outputs are 1. *)
Definition ars_preset (async_reset : bool) (f : ars) : ars :=
  if async_reset then mk_ars true true else f.

(** Rising edge of [cd.clk]. *)
Definition ars_tick (f : ars) : ars := mk_ars false (rst_meta f).

(** [insert_reset]: the statements of a synchronous block are followed by
    [If(ResetSignal(cd), target.eq(target.reset), ...)], so that on an
    edge with the domain's reset high every target takes its reset
    value. *)
Definition insert_reset {A : Type} (rst_high : bool) (reset_values body : A) : A :=
  if rst_high then reset_values else body.

End Migen.

Import Migen.

(** ** Clock domains created by [_CRG.__init__] *)

Inductive domain : Type := cd_sys | cd_sys4x | cd_clk200 | cd_ic | cd_pll4x.

(** The [reset_less] argument of each [ClockDomain(...)] call. *)
Definition reset_less (d : domain) : bool :=
  match d with
  | cd_sys => false
  | cd_sys4x => true
  | cd_clk200 => false
  | cd_ic => false
  | cd_pll4x => true
  end.

Definition clock_domains : list domain :=
  [cd_sys; cd_sys4x; cd_clk200; cd_ic; cd_pll4x].

(** The domains that are the target of an [AsyncResetSynchronizer] in
    [self.specials]. *)
Definition synchronized_domains : list domain := [cd_clk200; cd_ic].

(** ** State *)

Record state : Type := mk_state {
  (* asynchronous inputs *)
  cpu_reset : bool;           (* platform.request("cpu_reset") *)
  pll_locked : bool;          (* pll.locked *)
  idelayctrl_rdy : bool;      (* o_RDY of IDELAYCTRL (only wired when with_sdram) *)
  (* clk200 domain *)
  clk200_ars : ars;           (* AsyncResetSynchronizer(cd_clk200, ...) *)
  ic_reset_counter : Z;       (* Signal(max=64, reset=63) *)
  ic_reset : bool;            (* Signal(reset=1) *)
  (* ic domain, clocked by cd_sys.clk *)
  ic_ars : ars;               (* AsyncResetSynchronizer(cd_ic, ic_reset) *)
  ic_rdy_counter : Z;         (* Signal(max=64, reset=63) *)
  sys_rst : bool              (* cd_sys.rst, reset value 1 *)
}.

Inductive event : Type :=
| Clk200Tick                   (* rising edge of cd_clk200.clk *)
| IcTick                       (* rising edge of cd_ic.clk = cd_sys.clk *)
| SetCpuReset (b : bool)
| SetPllLocked (b : bool)
| SetIdelayRdy (b : bool).

Definition is_clk200_tick (e : event) : bool :=
  match e with Clk200Tick => true | _ => false end.

Definition is_ic_tick (e : event) : bool :=
  match e with IcTick => true | _ => false end.

(** An event that can start a reset of the clk200 domain. *)
Definition is_reset_cause (e : event) : bool :=
  match e with
  | SetCpuReset true => true
  | SetPllLocked false => true
  | _ => false
  end.

(** Power-up: every register holds its reset value, every [FDPE] its
    [INIT]; the inputs have whatever level the board gives them. *)
Definition power_up (cpu_reset0 pll_locked0 rdy0 : bool) : state :=
  mk_state cpu_reset0 pll_locked0 rdy0 ars_init 63 true ars_init 63 true.

(** [~pll.locked | cpu_reset] *)
Definition clk200_async_reset (s : state) : bool :=
  negb (pll_locked s) || cpu_reset s.

Definition cd_clk200_rst (s : state) : bool := rst (clk200_ars s).
Definition cd_ic_rst (s : state) : bool := rst (ic_ars s).

(** The reset line of a domain, [None] for a [reset_less] one. *)
Definition cd_rst (d : domain) (s : state) : option bool :=
  match d with
  | cd_sys => Some (sys_rst s)
  | cd_clk200 => Some (cd_clk200_rst s)
  | cd_ic => Some (cd_ic_rst s)
  | cd_sys4x => None
  | cd_pll4x => None
  end.

Definition held_in_reset (d : domain) (s : state) : bool :=
  match cd_rst d s with
  | Some b => b
  | None => false
  end.

(** The asynchronous presets of the two synchronizers take effect as soon as
    their inputs are high. *)
Definition settle (s : state) : state :=
  mk_state (cpu_reset s) (pll_locked s) (idelayctrl_rdy s)
           (ars_preset (clk200_async_reset s) (clk200_ars s))
           (ic_reset_counter s) (ic_reset s)
           (ars_preset (ic_reset s) (ic_ars s))
           (ic_rdy_counter s) (sys_rst s).

Section CRG.

(** The [with_sdram] argument of [_CRG.__init__]. *)
Variable with_sdram : bool.

(** [ic_rdy]: the [RDY] output of [IDELAYCTRL] when [with_sdram], the
    constant 1 otherwise. *)
Definition ic_rdy (s : state) : bool :=
  if with_sdram then idelayctrl_rdy s else true.

(** [self.sync.clk200]: the pair ([ic_reset_counter], [ic_reset]) after
    the edge. *)
Definition sync_clk200 (s : state) : Z * bool :=
  insert_reset (cd_clk200_rst s)
    (63, true)
    (if negb (ic_reset_counter s =? 0)
     then (wrap (ic_reset_counter s - 1), ic_reset s)
     else (ic_reset_counter s, false)).

(** [self.sync.ic]: the pair ([ic_rdy_counter], [cd_sys.rst]) after the
    edge. *)
Definition sync_ic (s : state) : Z * bool :=
  insert_reset (cd_ic_rst s)
    (63, true)
    (if ic_rdy s
     then if negb (ic_rdy_counter s =? 0)
          then (wrap (ic_rdy_counter s - 1), sys_rst s)
          else (ic_rdy_counter s, false)
     else (ic_rdy_counter s, sys_rst s)).

Definition tick_clk200 (s : state) : state :=
  mk_state (cpu_reset s) (pll_locked s) (idelayctrl_rdy s)
           (ars_tick (clk200_ars s))
           (fst (sync_clk200 s)) (snd (sync_clk200 s))
           (ic_ars s) (ic_rdy_counter s) (sys_rst s).

Definition tick_ic (s : state) : state :=
  mk_state (cpu_reset s) (pll_locked s) (idelayctrl_rdy s)
           (clk200_ars s) (ic_reset_counter s) (ic_reset s)
           (ars_tick (ic_ars s))
           (fst (sync_ic s)) (snd (sync_ic s)).

Definition set_cpu_reset (b : bool) (s : state) : state :=
  mk_state b (pll_locked s) (idelayctrl_rdy s)
           (clk200_ars s) (ic_reset_counter s) (ic_reset s)
           (ic_ars s) (ic_rdy_counter s) (sys_rst s).

Definition set_pll_locked (b : bool) (s : state) : state :=
  mk_state (cpu_reset s) b (idelayctrl_rdy s)
           (clk200_ars s) (ic_reset_counter s) (ic_reset s)
           (ic_ars s) (ic_rdy_counter s) (sys_rst s).

Definition set_idelayctrl_rdy (b : bool) (s : state) : state :=
  mk_state (cpu_reset s) (pll_locked s) b
           (clk200_ars s) (ic_reset_counter s) (ic_reset s)
           (ic_ars s) (ic_rdy_counter s) (sys_rst s).

Definition apply_event (e : event) (s : state) : state :=
  match e with
  | Clk200Tick => tick_clk200 s
  | IcTick => tick_ic s
  | SetCpuReset b => set_cpu_reset b s
  | SetPllLocked b => set_pll_locked b s
  | SetIdelayRdy b => set_idelayctrl_rdy b s
  end.

Definition step (e : event) (s : state) : state := settle (apply_event e s).

Definition run (es : list event) (s : state) : state :=
  fold_left (fun acc e => step e acc) es s.

Inductive reachable : state -> Prop :=
| reachable_power_up : forall c l r, reachable (power_up c l r)
| reachable_step : forall s e, reachable s -> reachable (step e s).

(** The invariant carried by every reachable state. *)
Record crg_inv (s : state) : Prop := mk_crg_inv {
  inv_counter1 : 0 <= ic_reset_counter s <= 63;
  inv_counter2 : 0 <= ic_rdy_counter s <= 63;
  inv_clk200_preset : clk200_async_reset s = true -> clk200_ars s = ars_init;
  inv_ic_preset : ic_reset s = true -> ic_ars s = ars_init;
  inv_ic_chain : rst (ic_ars s) = false -> rst_meta (ic_ars s) = false;
  inv_stage1 : ic_reset s = false -> ic_reset_counter s = 0;
  inv_stage2 : sys_rst s = false -> ic_rdy_counter s = 0
}.

End CRG.

(** Scenarios *)

(** Cold start with the multiplier locking straight away, [n1] edges of
    clk200 and then [n2] edges of the primary clock. *)
Definition bring_up (n1 n2 : nat) : list event :=
  SetPllLocked true :: repeat Clk200Tick n1 ++ repeat IcTick n2.

Definition cold : state := power_up false false false.

Definition released (with_sdram : bool) : state :=
  run with_sdram (SetIdelayRdy true :: bring_up 66 66) cold.

(** Runs that leave one clock alone *)

Definition no_clk200_tick (es : list event) : bool :=
  forallb (fun e => negb (is_clk200_tick e)) es.

Definition no_ic_tick (es : list event) : bool :=
  forallb (fun e => negb (is_ic_tick e)) es.

Definition no_reset_cause (es : list event) : bool :=
  forallb (fun e => negb (is_reset_cause e)) es.

(** Nothing pending anywhere in the reset chain: [~pll.locked | cpu_reset]
    is low, both synchronizers have released and [ic_reset] is low. *)
Definition quiescent (s : state) : bool :=
  negb (clk200_async_reset s)
  && negb (rst_meta (clk200_ars s)) && negb (rst (clk200_ars s))
  && negb (ic_reset s)
  && negb (rst_meta (ic_ars s)) && negb (rst (ic_ars s)).

(** A run in which [pll.locked] never goes high. *)
Definition never_locks (es : list event) : bool :=
  forallb (fun e => match e with SetPllLocked true => false | _ => true end)
          es.

(** A run in which the [RDY] output of [IDELAYCTRL] never goes high. *)
Definition never_ready (es : list event) : bool :=
  forallb (fun e => match e with SetIdelayRdy true => false | _ => true end)
          es.

(** ** Counting edges in a run *)

Definition count_clk200 (es : list event) : nat :=
  length (filter is_clk200_tick es).

Definition count_ic (es : list event) : nat :=
  length (filter is_ic_tick es).

(** A run made of clock edges only: the inputs do not move. *)
Definition ticks_only (es : list event) : bool :=
  forallb (fun e => is_clk200_tick e || is_ic_tick e) es.

Definition is_rdy_event (e : event) : bool :=
  match e with SetIdelayRdy _ => true | _ => false end.

(** Edges of [cd.clk] a synchronizer still needs before [cd.rst] is low,
    once its asynchronous input is low. *)
Definition ars_latency (f : ars) : nat :=
  if rst_meta f then 2 else if rst f then 1 else 0.

(** Edges of clk200 still needed before [ic_reset] is low and the clk200
    synchronizer has released, with [~pll.locked | cpu_reset] low. *)
Definition clk200_edges_left (s : state) : nat :=
  match ars_latency (clk200_ars s) with
  | O => if ic_reset s then S (Z.to_nat (ic_reset_counter s)) else O
  | S n => (S n + 64)%nat
  end.

(** Edges of the primary clock still needed before [cd_sys.rst] is low,
    with [ic_reset] low and [ic_rdy] high. *)
Definition ic_edges_left (s : state) : nat :=
  match ars_latency (ic_ars s) with
  | O => if sys_rst s then S (Z.to_nat (ic_rdy_counter s)) else O
  | S n => (S n + 64)%nat
  end.

(** ** BaseSoC: the LED counters and the [with_sdram] flag *)

(** [Signal(32)]: an assignment keeps the low 32 bits. *)
Definition wrap32 (v : Z) : Z := v mod 2 ^ 32.
Arguments wrap32 : simpl never.

Record soc_state : Type := mk_soc {
  crg : state;                (* self.submodules.crg *)
  led_counter_n : Z;          (* Signal(32) *)
  led_counter : Z             (* Signal(32), reset 0 *)
}.

Definition soc_power_up (cpu_reset0 pll_locked0 rdy0 : bool) : soc_state :=
  mk_soc (power_up cpu_reset0 pll_locked0 rdy0) 0 0.

(** [self.sync] of [BaseSoC] (the sys domain, reset by [cd_sys.rst]): the
    pair ([led_counter_n], [led_counter]) after an edge of [cd_sys.clk]. *)
Definition sync_sys (t : soc_state) : Z * Z :=
  insert_reset (sys_rst (crg t))
    (0, 0)
    (wrap32 (led_counter_n t + 1), wrap32 (led_counter t + 1)).

(** [cd_ic.clk] is [cd_sys.clk]: [IcTick] is also the edge of the sys
    domain. *)
Definition soc_step (with_sdram : bool) (e : event) (t : soc_state)
  : soc_state :=
  match e with
  | IcTick =>
      mk_soc (step with_sdram e (crg t)) (fst (sync_sys t)) (snd (sync_sys t))
  | _ =>
      mk_soc (step with_sdram e (crg t)) (led_counter_n t) (led_counter t)
  end.

Definition soc_run (with_sdram : bool) (es : list event) (t : soc_state)
  : soc_state :=
  fold_left (fun acc e => soc_step with_sdram e acc) es t.

(** [led0.eq(led_counter_n[25])], [led1.eq(led_counter[26])] and
    [user_led 2 .eq(pll.locked)]. *)
Definition led0 (t : soc_state) : bool := Z.testbit (led_counter_n t) 25.
Definition led1 (t : soc_state) : bool := Z.testbit (led_counter t) 26.
Definition led2 (t : soc_state) : bool := pll_locked (crg t).

(** [not self.integrated_main_ram_size]: Python's [not] on [None] or an
    integer. *)
Definition py_not (size : option Z) : bool :=
  match size with
  | None => true
  | Some n => n =? 0
  end.

(** The third argument of [_CRG(...)] in [BaseSoC.__init__]. *)
Definition crg_with_sdram (integrated_main_ram_size : option Z) : bool :=
  py_not integrated_main_ram_size.

(** The guard of the [# sdram] block of [BaseSoC.__init__]. *)
Definition has_ddrphy (integrated_main_ram_size : option Z) : bool :=
  py_not integrated_main_ram_size.

(** [integrated_main_ram_size=0x8000 if not args.with_sdram else None] in
    [main]. *)
Definition main_integrated_main_ram_size (args_with_sdram : bool)
  : option Z :=
  if negb args_with_sdram then Some 32768 else None.

(** ** Basic facts *)

Lemma wrap_pred (c : Z) : 0 < c <= 63 -> wrap (c - 1) = c - 1.
Proof.
  intros H. unfold wrap, counter_width.
  apply Z.mod_small. change (2 ^ 6) with 64. lia.
Qed.

Ltac unfold_crg :=
  unfold step, apply_event, settle, tick_clk200, tick_ic, set_cpu_reset,
    set_pll_locked, set_idelayctrl_rdy, sync_clk200, sync_ic, insert_reset,
    ars_preset, ars_tick, ars_init, cd_clk200_rst, cd_ic_rst, ic_rdy,
    clk200_async_reset in *.

Ltac crush_crg :=
  unfold_crg; cbn [cpu_reset pll_locked idelayctrl_rdy clk200_ars
    ic_reset_counter ic_reset ic_ars ic_rdy_counter sys_rst rst_meta rst
    fst snd negb orb andb] in *.

Section CRG_Facts.

Variable with_sdram : bool.

Abbreviation step := (step with_sdram).
Abbreviation run := (run with_sdram).
Abbreviation reachable := (reachable with_sdram).
Abbreviation ic_rdy := (ic_rdy with_sdram).

Lemma run_app (es1 es2 : list event) (s : state) :
  run (es1 ++ es2) s = run es2 (run es1 s).
Proof. apply fold_left_app. Qed.

Lemma run_snoc (es : list event) (e : event) (s : state) :
  run (es ++ [e]) s = step e (run es s).
Proof. rewrite run_app. reflexivity. Qed.

Lemma run_cons (e : event) (es : list event) (s : state) :
  run (e :: es) s = run es (step e s).
Proof. reflexivity. Qed.

Lemma crg_inv_power_up (c l r : bool) : crg_inv (power_up c l r).
Proof. constructor; cbn; intros; try lia; try reflexivity; discriminate. Qed.

Lemma crg_inv_step (e : event) (s : state) :
  crg_inv s -> crg_inv (step e s).
Proof.
  intros [H1 H2 H3 H4 H5 H6 H7].
  destruct s as [c l r [m1 q1] n1 r1 [m2 q2] n2 q].
  crush_crg.
  assert (W1 : n1 <> 0 -> wrap (n1 - 1) = n1 - 1)
    by (intros; apply wrap_pred; lia).
  assert (W2 : n2 <> 0 -> wrap (n2 - 1) = n2 - 1)
    by (intros; apply wrap_pred; lia).
  destruct e as [| | b | b | b]; cbn -[wrap];
    repeat match goal with
           | |- context [?x =? 0] => destruct (Z.eqb_spec x 0)
           | |- context [if ?b then _ else _] => destruct b eqn:?
           | |- crg_inv _ => constructor; cbn -[wrap]; intros
           end;
    subst; cbn -[wrap] in *;
    try rewrite W1 by assumption; try rewrite W2 by assumption;
    try reflexivity; try discriminate; try lia;
    try (exfalso; auto; fail); auto;
    crush_crg; congruence.
Qed.

Lemma reachable_inv (s : state) : reachable s -> crg_inv s.
Proof.
  induction 1; [apply crg_inv_power_up | now apply crg_inv_step].
Qed.

Lemma reachable_run (es : list event) (s : state) :
  reachable s -> reachable (run es s).
Proof.
  revert s; induction es as [|e es IH]; intros s H; [exact H|].
  rewrite run_cons. apply IH. now constructor.
Qed.

(** *** Next-state functions of the individual registers *)

Lemma step_sys_rst (e : event) (s : state) :
  sys_rst (step e s) =
    match e with
    | IcTick =>
        if cd_ic_rst s then true
        else if ic_rdy s && (ic_rdy_counter s =? 0) then false
             else sys_rst s
    | _ => sys_rst s
    end.
Proof.
  destruct e; crush_crg; try reflexivity.
  destruct (rst (ic_ars s)); [reflexivity|].
  destruct with_sdram, (idelayctrl_rdy s), (ic_rdy_counter s =? 0);
    reflexivity.
Qed.

Lemma step_ic_rdy_counter (e : event) (s : state) :
  ic_rdy_counter (step e s) =
    match e with
    | IcTick =>
        if cd_ic_rst s then 63
        else if ic_rdy s && negb (ic_rdy_counter s =? 0)
             then wrap (ic_rdy_counter s - 1)
             else ic_rdy_counter s
    | _ => ic_rdy_counter s
    end.
Proof.
  destruct e; crush_crg; try reflexivity.
  destruct (rst (ic_ars s)); [reflexivity|].
  destruct with_sdram, (idelayctrl_rdy s), (ic_rdy_counter s =? 0);
    reflexivity.
Qed.

Lemma step_ic_reset_counter (e : event) (s : state) :
  ic_reset_counter (step e s) =
    match e with
    | Clk200Tick =>
        if cd_clk200_rst s then 63
        else if negb (ic_reset_counter s =? 0)
             then wrap (ic_reset_counter s - 1)
             else ic_reset_counter s
    | _ => ic_reset_counter s
    end.
Proof.
  destruct e; crush_crg; try reflexivity.
  destruct (rst (clk200_ars s)); [reflexivity|].
  destruct (ic_reset_counter s =? 0); reflexivity.
Qed.

Lemma step_ic_reset (e : event) (s : state) :
  ic_reset (step e s) =
    match e with
    | Clk200Tick =>
        if cd_clk200_rst s then true
        else if ic_reset_counter s =? 0 then false else ic_reset s
    | _ => ic_reset s
    end.
Proof.
  destruct e; crush_crg; try reflexivity.
  destruct (rst (clk200_ars s)); [reflexivity|].
  destruct (ic_reset_counter s =? 0); reflexivity.
Qed.

Lemma step_cd_ic_rst (e : event) (s : state) :
  cd_ic_rst (step e s) =
    ic_reset (step e s)
    || match e with
       | IcTick => rst_meta (ic_ars s)
       | _ => cd_ic_rst s
       end.
Proof.
  destruct s as [c l r [m1 q1] n1 r1 [m2 q2] n2 q].
  destruct e; crush_crg; cbn -[wrap];
    repeat match goal with
           | |- context [if ?b then _ else _] => destruct b
           end; reflexivity.
Qed.

Lemma step_cd_clk200_rst (e : event) (s : state) :
  cd_clk200_rst (step e s) =
    clk200_async_reset (step e s)
    || match e with
       | Clk200Tick => rst_meta (clk200_ars s)
       | _ => cd_clk200_rst s
       end.
Proof.
  destruct s as [c l r [m1 q1] n1 r1 [m2 q2] n2 q].
  destruct e as [| | b | b | b]; crush_crg; cbn -[wrap];
    try destruct b; destruct l, c, m1, q1; reflexivity.
Qed.

(** In a reachable state the ic domain is out of reset only after the
    intermediate reset has dropped, and that only after Countdown-1 has
    run out. *)
Lemma ic_out_of_reset (s : state) :
  crg_inv s -> cd_ic_rst s = false ->
  ic_reset s = false /\ ic_reset_counter s = 0.
Proof.
  intros I H.
  assert (R : ic_reset s = false).
  { destruct (ic_reset s) eqn:E; [|reflexivity].
    unfold cd_ic_rst in H. rewrite (inv_ic_preset _ I E) in H.
    discriminate. }
  split; [exact R | exact (inv_stage1 _ I R)].
Qed.

(** The only transition that deasserts [cd_sys.rst]. *)
Lemma release_step (e : event) (s : state) :
  sys_rst s = true -> sys_rst (step e s) = false ->
  e = IcTick /\ cd_ic_rst s = false /\ ic_rdy s = true
  /\ ic_rdy_counter s = 0.
Proof.
  intros H1 H2. rewrite step_sys_rst in H2.
  destruct e; try congruence.
  destruct (cd_ic_rst s); [discriminate|].
  destruct (ic_rdy s); [|cbn in H2; congruence].
  destruct (Z.eqb_spec (ic_rdy_counter s) 0); [|cbn in H2; congruence].
  auto.
Qed.

(** The only transition that re-asserts [cd_sys.rst]. *)
Lemma rearm_step (e : event) (s : state) :
  sys_rst s = false -> sys_rst (step e s) = true ->
  e = IcTick /\ cd_ic_rst s = true.
Proof.
  intros H1 H2. rewrite step_sys_rst in H2.
  destruct e; try congruence.
  destruct (cd_ic_rst s); [auto|].
  destruct (ic_rdy s && (ic_rdy_counter s =? 0)); congruence.
Qed.

End CRG_Facts.

(** ** The release of the primary domain *)

Section Release.

Variable with_sdram : bool.

Abbreviation step := (step with_sdram).
Abbreviation run := (run with_sdram).
Abbreviation ic_rdy := (ic_rdy with_sdram).

(** C1.  Whenever [cd_sys.rst] is low after a run from power-up, the run
    contains the primary-clock edge that released it: before that edge
    [cd_sys.rst] was still high, the intermediate reset [ic_reset] had
    dropped with [ic_reset_counter] at 0, the ic domain was out of reset,
    [ic_rdy] was sampled high and [ic_rdy_counter] was at 0; the reset has
    stayed low since that edge, and [ic_rdy_counter] is still 0. *)
Theorem release_only_after_prerequisites
    (c l r : bool) (es : list event) :
  sys_rst (run es (power_up c l r)) = false ->
  ic_rdy_counter (run es (power_up c l r)) = 0 /\
  exists pre post,
    es = pre ++ IcTick :: post /\
    sys_rst (run pre (power_up c l r)) = true /\
    ic_reset (run pre (power_up c l r)) = false /\
    ic_reset_counter (run pre (power_up c l r)) = 0 /\
    cd_ic_rst (run pre (power_up c l r)) = false /\
    ic_rdy (run pre (power_up c l r)) = true /\
    ic_rdy_counter (run pre (power_up c l r)) = 0 /\
    forall k, sys_rst (run (pre ++ IcTick :: firstn k post)
                           (power_up c l r)) = false.
Proof.
  intros H. split.
  { apply inv_stage2; [|exact H].
    eapply reachable_inv, reachable_run. constructor. }
  revert H. induction es as [|e es IH] using rev_ind.
  - cbn. discriminate.
  - rewrite run_snoc. intros H.
    destruct (sys_rst (run es (power_up c l r))) eqn:E.
    + destruct (release_step _ _ _ E H) as (-> & R1 & R2 & R3).
      assert (I : crg_inv (run es (power_up c l r)))
        by (eapply reachable_inv, reachable_run; constructor).
      destruct (ic_out_of_reset _ I R1) as [R4 R5].
      exists es, []. repeat split; auto.
      intros k. rewrite firstn_nil, run_snoc. exact H.
    + destruct (IH eq_refl) as (pre & post & -> & P).
      exists pre, (post ++ [e]).
      split; [now rewrite <- app_assoc|].
      destruct P as (P1 & P2 & P3 & P4 & P5 & P6 & P7).
      repeat split; auto.
      intros k. rewrite firstn_app.
      destruct (Nat.le_gt_cases k (length post)) as [L|L].
      * replace (k - length post)%nat with 0%nat by lia.
        cbn [firstn]. rewrite app_nil_r. apply P7.
      * rewrite firstn_all2 by lia.
        destruct (k - length post)%nat eqn:K; [lia|].
        cbn [firstn]. rewrite firstn_nil.
        change (pre ++ IcTick :: post ++ [e])
          with (pre ++ (IcTick :: post) ++ [e]).
        rewrite app_assoc, run_snoc. exact H.
Qed.

End Release.

Lemma release_only_after_prerequisites_witness :
  ic_rdy_counter (released true) = 0 /\
  exists pre post,
    SetIdelayRdy true :: bring_up 66 66 = pre ++ IcTick :: post /\
    sys_rst (run true pre cold) = true /\
    ic_reset (run true pre cold) = false /\
    ic_reset_counter (run true pre cold) = 0 /\
    cd_ic_rst (run true pre cold) = false /\
    ic_rdy true (run true pre cold) = true /\
    ic_rdy_counter (run true pre cold) = 0 /\
    forall k, sys_rst (run true (pre ++ IcTick :: firstn k post) cold) = false.
Proof.
  apply (release_only_after_prerequisites true false false false
           (SetIdelayRdy true :: bring_up 66 66)).
  vm_compute. reflexivity.
Defined.

(** ** Runs that leave one clock alone *)

Section Runs.

Variable with_sdram : bool.

Abbreviation step := (step with_sdram).
Abbreviation run := (run with_sdram).
Abbreviation ic_rdy := (ic_rdy with_sdram).

Lemma run_no_clk200_tick (es : list event) (s : state) :
  no_clk200_tick es = true ->
  ic_reset (run es s) = ic_reset s
  /\ ic_reset_counter (run es s) = ic_reset_counter s
  /\ (cd_clk200_rst s = true -> cd_clk200_rst (run es s) = true).
Proof.
  revert s; induction es as [|e es IH]; intros s H; [cbn; auto|].
  cbn [no_clk200_tick forallb] in H.
  apply andb_prop in H as [He Hes].
  rewrite run_cons.
  destruct (IH (step e s) Hes) as (A & B & C).
  rewrite A, B, step_ic_reset, step_ic_reset_counter.
  destruct e; try discriminate; repeat split; auto; intros R; apply C;
    rewrite step_cd_clk200_rst, R; apply orb_true_r.
Qed.

Lemma run_no_ic_tick (es : list event) (s : state) :
  no_ic_tick es = true ->
  sys_rst (run es s) = sys_rst s
  /\ ic_rdy_counter (run es s) = ic_rdy_counter s
  /\ (cd_ic_rst s = true -> cd_ic_rst (run es s) = true).
Proof.
  revert s; induction es as [|e es IH]; intros s H; [cbn; auto|].
  cbn [no_ic_tick forallb] in H.
  apply andb_prop in H as [He Hes].
  rewrite run_cons.
  destruct (IH (step e s) Hes) as (A & B & C).
  rewrite A, B, step_sys_rst, step_ic_rdy_counter.
  destruct e; try discriminate; repeat split; auto; intros R; apply C;
    rewrite step_cd_ic_rst, R; apply orb_true_r.
Qed.

Lemma step_quiescent (e : event) (s : state) :
  is_reset_cause e = false -> quiescent s = true ->
  quiescent (step e s) = true.
Proof.
  destruct s as [c l r [m1 q1] n1 r1 [m2 q2] n2 q].
  unfold quiescent. crush_crg. intros He H.
  destruct l, c, m1, q1, r1, m2, q2; try discriminate H;
    destruct e as [| | [|] | [|] | b]; try discriminate He;
    cbn -[wrap]; try reflexivity;
    destruct (n1 =? 0); reflexivity.
Qed.

Lemma run_quiescent (es : list event) (s : state) :
  no_reset_cause es = true -> quiescent s = true ->
  quiescent (run es s) = true.
Proof.
  revert s; induction es as [|e es IH]; intros s H Q; [exact Q|].
  cbn [no_reset_cause forallb] in H.
  apply andb_prop in H as [He Hes].
  rewrite run_cons. apply IH; [exact Hes|].
  apply step_quiescent; [|exact Q].
  now destruct (is_reset_cause e).
Qed.

Lemma quiescent_cd_ic_rst (s : state) :
  quiescent s = true -> cd_ic_rst s = false.
Proof.
  unfold quiescent, cd_ic_rst. intros H.
  repeat (apply andb_prop in H as [H ?]).
  now destruct (rst (ic_ars s)).
Qed.

End Runs.

(** ** External reset *)

Section ExternalReset.

Variable with_sdram : bool.

Abbreviation step := (step with_sdram).
Abbreviation run := (run with_sdram).
Abbreviation ic_rdy := (ic_rdy with_sdram).

(** An event that raises [~pll.locked | cpu_reset] resets the clk200
    registers on the next clk200 edge and the ic registers on the primary
    edge that follows it. *)
Lemma reset_chain (e0 : event) (s : state) (es1 es2 : list event) :
  is_reset_cause e0 = true ->
  no_clk200_tick es1 = true ->
  no_ic_tick es2 = true ->
  let s1 := run (e0 :: es1 ++ [Clk200Tick]) s in
  let s2 := run (es2 ++ [IcTick]) s1 in
  (ic_reset s1 = true /\ ic_reset_counter s1 = 63 /\ cd_ic_rst s1 = true)
  /\ (ic_rdy_counter s2 = 63 /\ sys_rst s2 = true)
  /\ (no_clk200_tick es2 = true ->
      ic_reset s2 = true /\ ic_reset_counter s2 = 63).
Proof.
  intros H0 H1 H2 s1 s2.
  assert (A : cd_clk200_rst (run es1 (step e0 s)) = true).
  { apply run_no_clk200_tick; [exact H1|].
    rewrite step_cd_clk200_rst.
    replace (clk200_async_reset (step e0 s)) with true; [reflexivity|].
    destruct e0 as [| | [|] | [|] | b]; try discriminate H0;
      unfold clk200_async_reset; cbn; [now rewrite orb_true_r | reflexivity]. }
  assert (B : ic_reset s1 = true /\ ic_reset_counter s1 = 63).
  { unfold s1. rewrite run_cons, run_snoc.
    rewrite step_ic_reset, step_ic_reset_counter, A. auto. }
  assert (C : cd_ic_rst s1 = true).
  { unfold s1 at 1. rewrite run_cons, run_snoc, step_cd_ic_rst.
    fold (run (es1 ++ [Clk200Tick]) (step e0 s)).
    rewrite <- run_snoc, <- run_cons. fold s1.
    now rewrite (proj1 B). }
  assert (D : cd_ic_rst (run es2 s1) = true)
    by (apply run_no_ic_tick; assumption).
  split; [tauto|]. split.
  - unfold s2. rewrite run_snoc, step_ic_rdy_counter, step_sys_rst, D.
    auto.
  - intros H3.
    assert (E : no_clk200_tick (es2 ++ [IcTick]) = true).
    { unfold no_clk200_tick in *. rewrite forallb_app, H3. reflexivity. }
    destruct (run_no_clk200_tick with_sdram _ s1 E) as (E1 & E2 & _).
    unfold s2. rewrite E1, E2. exact B.
Qed.

(** C2 (as amended).  From any state, once [cpu_reset] has been asserted
    the next edge of clk200 reloads [ic_reset_counter] to 63 and
    re-asserts [ic_reset] (and with it, asynchronously, [cd_ic.rst]); the
    next edge of the primary clock after that clk200 edge reloads
    [ic_rdy_counter] to 63 and re-asserts [cd_sys.rst].  Whatever else
    happens in between (release of [cpu_reset], edges of the other clock,
    changes of the other inputs) does not matter, and when nothing but
    input changes happens between the two edges all four registers hold
    their reset values together. *)
Theorem cpu_reset_rearms_in_chain (s : state) (es1 es2 : list event) :
  no_clk200_tick es1 = true ->
  no_ic_tick es2 = true ->
  let s1 := run (SetCpuReset true :: es1 ++ [Clk200Tick]) s in
  let s2 := run (es2 ++ [IcTick]) s1 in
  (ic_reset s1 = true /\ ic_reset_counter s1 = 63 /\ cd_ic_rst s1 = true)
  /\ (ic_rdy_counter s2 = 63 /\ sys_rst s2 = true)
  /\ (no_clk200_tick es2 = true ->
      ic_reset s2 = true /\ ic_reset_counter s2 = 63).
Proof. intros H1 H2. now apply reset_chain. Qed.

End ExternalReset.

Lemma cpu_reset_rearms_in_chain_witness :
  let s1 := run false (SetCpuReset true :: [IcTick] ++ [Clk200Tick])
              (released false) in
  let s2 := run false ([SetCpuReset false] ++ [IcTick]) s1 in
  (ic_reset s1 = true /\ ic_reset_counter s1 = 63 /\ cd_ic_rst s1 = true)
  /\ (ic_rdy_counter s2 = 63 /\ sys_rst s2 = true)
  /\ (ic_reset s2 = true /\ ic_reset_counter s2 = 63).
Proof.
  destruct (cpu_reset_rearms_in_chain false (released false)
              [IcTick] [SetCpuReset false] eq_refl eq_refl)
    as (A & B & C).
  exact (conj A (conj B (C eq_refl))).
Defined.

(** C2, as stated, fails: in the released state an edge of the primary
    clock that follows the assertion of [cpu_reset] reloads nothing, and
    after one edge of each clock (primary first) [ic_rdy_counter] is still 0
    and [cd_sys.rst] still low, although [cpu_reset] is held high. *)
Lemma cpu_reset_not_within_one_ic_tick :
  reachable false (released false) /\
  let s := step false (SetCpuReset true) (released false) in
  cpu_reset s = true /\
  (sys_rst (step false IcTick s) = false
   /\ ic_rdy_counter (step false IcTick s) = 0) /\
  (cpu_reset (run false [IcTick; Clk200Tick] s) = true
   /\ sys_rst (run false [IcTick; Clk200Tick] s) = false
   /\ ic_rdy_counter (run false [IcTick; Clk200Tick] s) = 0).
Proof.
  split.
  - apply reachable_run. constructor.
  - vm_compute. repeat split.
Qed.

(** ** Countdown-2 and the ready signal *)

Section Ready.

Variable with_sdram : bool.

Abbreviation step := (step with_sdram).
Abbreviation run := (run with_sdram).
Abbreviation reachable := (reachable with_sdram).
Abbreviation ic_rdy := (ic_rdy with_sdram).

(** C3.  On an edge of the primary clock with [ic_rdy] low
    [ic_rdy_counter] does not decrease (it keeps its value, or is reloaded
    to 63 when [cd_ic.rst] is high); and whenever an event decreases
    [ic_rdy_counter], that event is an edge of the primary clock on which
    [ic_rdy] was high and [cd_ic.rst] low, and the decrease is by one. *)
Theorem countdown2_waits_for_ready (s : state) :
  reachable s ->
  (ic_rdy s = false ->
   ic_rdy_counter s <= ic_rdy_counter (step IcTick s)
   /\ (cd_ic_rst s = false ->
       ic_rdy_counter (step IcTick s) = ic_rdy_counter s))
  /\ (forall e,
       ic_rdy_counter (step e s) < ic_rdy_counter s ->
       e = IcTick /\ ic_rdy s = true /\ cd_ic_rst s = false
       /\ ic_rdy_counter (step e s) = ic_rdy_counter s - 1).
Proof.
  intros R. pose proof (reachable_inv _ _ R) as I.
  pose proof (inv_counter2 _ I) as B.
  split.
  - intros Hr. rewrite step_ic_rdy_counter, Hr.
    destruct (cd_ic_rst s); cbn; split; try lia; try discriminate; auto.
  - intros e H. rewrite step_ic_rdy_counter in *.
    destruct e; try lia.
    destruct (cd_ic_rst s); [lia|].
    destruct (ic_rdy s); [|cbn in H; lia].
    destruct (Z.eqb_spec (ic_rdy_counter s) 0); cbn in *; [lia|].
    rewrite wrap_pred by lia. auto.
Qed.

End Ready.

Lemma countdown2_waits_for_ready_witness :
  (let s := run true (bring_up 66 2) cold in
   ic_rdy true s = false /\
   ic_rdy_counter s <= ic_rdy_counter (step true IcTick s)) /\
  (let s := run true (SetIdelayRdy true :: bring_up 66 2) cold in
   ic_rdy_counter (step true IcTick s) < ic_rdy_counter s /\
   ic_rdy true s = true /\ cd_ic_rst s = false).
Proof.
  split.
  - split; [reflexivity|].
    apply (countdown2_waits_for_ready true (run true (bring_up 66 2) cold)).
    + apply reachable_run. constructor.
    + reflexivity.
  - split; [reflexivity|].
    split; reflexivity.
Defined.

(** ** The moment of release and what undoes it *)

Section Released.

Variable with_sdram : bool.

Abbreviation step := (step with_sdram).
Abbreviation run := (run with_sdram).
Abbreviation reachable := (reachable with_sdram).
Abbreviation ic_rdy := (ic_rdy with_sdram).

Lemma run_stays_released (es : list event) (s : state) :
  no_reset_cause es = true -> quiescent s = true -> sys_rst s = false ->
  sys_rst (run es s) = false.
Proof.
  revert s; induction es as [|e es IH]; intros s H Q R; [exact R|].
  cbn [no_reset_cause forallb] in H.
  apply andb_prop in H as [He Hes].
  apply negb_true_iff in He.
  rewrite run_cons. apply IH; [exact Hes | |].
  - now apply step_quiescent.
  - rewrite step_sys_rst, (quiescent_cd_ic_rst _ Q), R.
    destruct e; try reflexivity.
    now destruct (ic_rdy s && (ic_rdy_counter s =? 0)).
Qed.

(** C4 (as amended).  Take a reachable state in which the ic domain is out
    of reset, [ic_rdy] is high and [ic_rdy_counter] is 1.  The next edge
    of the primary clock brings [ic_rdy_counter] to 0 with [cd_sys.rst]
    still high.  The edge after that one deasserts [cd_sys.rst], provided
    that on it [ic_rdy] is high and [cd_ic.rst] is still low.  From then
    on [cd_sys.rst] stays low for as long as [cpu_reset] is not asserted
    and [pll.locked] is not lost, given that no reset was already
    travelling through the chain at the release; and in general it can
    only go high again on an edge of the primary clock on which
    [cd_ic.rst] is high. *)
Theorem released_one_tick_after_zero
    (s : state) (es es' : list event) :
  reachable s ->
  cd_ic_rst s = false -> ic_rdy s = true -> ic_rdy_counter s = 1 ->
  no_ic_tick es = true ->
  let s1 := step IcTick s in
  let s2 := run es s1 in
  let s3 := step IcTick s2 in
  (ic_rdy_counter s1 = 0 /\ sys_rst s1 = true)
  /\ (cd_ic_rst s2 = false -> ic_rdy s2 = true ->
      sys_rst s3 = false
      /\ (quiescent s3 = true -> no_reset_cause es' = true ->
          sys_rst (run es' s3) = false))
  /\ (forall t e,
       sys_rst t = false -> sys_rst (step e t) = true ->
       e = IcTick /\ cd_ic_rst t = true).
Proof.
  intros R H1 H2 H3 H4 s1 s2 s3.
  pose proof (reachable_inv _ _ R) as I.
  assert (A : ic_rdy_counter s1 = 0 /\ sys_rst s1 = true).
  { unfold s1. rewrite step_ic_rdy_counter, step_sys_rst, H1, H2, H3.
    cbn. split; [reflexivity|].
    destruct (sys_rst s) eqn:E; [reflexivity|].
    pose proof (inv_stage2 _ I E). lia. }
  split; [exact A|]. split.
  - intros H5 H6.
    destruct (run_no_ic_tick with_sdram es s1 H4) as (B1 & B2 & _).
    assert (C : sys_rst s3 = false).
    { unfold s3. rewrite step_sys_rst, H5, H6.
      fold s2 in B2. rewrite B2, (proj1 A). reflexivity. }
    split; [exact C|].
    intros Q N. now apply run_stays_released.
  - intros t e. apply rearm_step.
Qed.

End Released.

Lemma released_one_tick_after_zero_witness :
  let s := run false (bring_up 66 64) cold in
  let s1 := step false IcTick s in
  let s2 := run false [SetIdelayRdy true] s1 in
  let s3 := step false IcTick s2 in
  (ic_rdy_counter s = 1 /\ ic_rdy_counter s1 = 0 /\ sys_rst s1 = true)
  /\ sys_rst s3 = false
  /\ sys_rst (run false [Clk200Tick; IcTick; SetCpuReset false] s3) = false.
Proof.
  destruct (released_one_tick_after_zero false
              (run false (bring_up 66 64) cold)
              [SetIdelayRdy true] [Clk200Tick; IcTick; SetCpuReset false]
              ltac:(apply reachable_run; constructor)
              eq_refl eq_refl eq_refl eq_refl)
    as ((A1 & A2) & B & _).
  destruct (B eq_refl eq_refl) as (B1 & B2).
  exact (conj (conj eq_refl (conj A1 A2)) (conj B1 (B2 eq_refl eq_refl))).
Defined.

(** C4, as stated, fails twice over.  With no external reset anywhere in
    the run, a loss of [pll.locked] re-asserts [cd_sys.rst] (one clk200
    edge, then one primary edge).  And with the calibration block present,
    [cd_sys.rst] stays high on the edge that follows [ic_rdy_counter]
    reaching 0 when [ic_rdy] has dropped by then. *)
Lemma sys_rst_reasserted_without_cpu_reset :
  (sys_rst (released false) = false
   /\ cpu_reset (released false) = false
   /\ (let s := run false [SetPllLocked false; Clk200Tick; IcTick]
                  (released false) in
       sys_rst s = true /\ cpu_reset s = false))
  /\ (let s := run true (SetIdelayRdy true :: bring_up 66 64) cold in
      ic_rdy_counter s = 1
      /\ ic_rdy_counter (step true IcTick s) = 0
      /\ cd_ic_rst (step true IcTick s) = false
      /\ sys_rst (run true [IcTick; SetIdelayRdy false; IcTick] s) = true).
Proof. vm_compute. repeat split. Qed.

(** ** Tick counts of the bring-up scenario *)

Lemma run_repeat_fixpoint (w : bool) (e : event) (s : state) (k : nat) :
  step w e s = s -> run w (repeat e k) s = s.
Proof.
  intros F. induction k as [|k IH]; [reflexivity|].
  cbn [repeat]. rewrite run_cons, F. exact IH.
Qed.

Lemma bring_up_split (n1 n2 k : nat) :
  run false (bring_up n1 (n2 + k)) cold
  = run false (repeat IcTick k) (run false (bring_up n1 n2) cold).
Proof.
  generalize cold. intros s0.
  unfold bring_up. rewrite repeat_app.
  change (SetPllLocked true :: repeat Clk200Tick n1
            ++ repeat IcTick n2 ++ repeat IcTick k)
    with ((SetPllLocked true :: repeat Clk200Tick n1)
            ++ repeat IcTick n2 ++ repeat IcTick k).
  rewrite app_assoc, run_app. reflexivity.
Qed.

Lemma bring_up_split1 (n k : nat) :
  run false (bring_up (n + k) 0) cold
  = run false (repeat Clk200Tick k) (run false (bring_up n 0) cold).
Proof.
  generalize cold. intros s0.
  unfold bring_up. cbn [repeat]. rewrite !app_nil_r, repeat_app.
  change (SetPllLocked true :: repeat Clk200Tick n ++ repeat Clk200Tick k)
    with ((SetPllLocked true :: repeat Clk200Tick n) ++ repeat Clk200Tick k).
  rewrite run_app. reflexivity.
Qed.

Lemma bring_up_stage1_done (k : nat) :
  run false (bring_up (66 + k) 0) cold = run false (bring_up 66 0) cold.
Proof.
  rewrite bring_up_split1. apply run_repeat_fixpoint.
  vm_compute. reflexivity.
Qed.

Lemma bring_up_stage2_done (k : nat) :
  run false (bring_up 66 (66 + k)) cold = run false (bring_up 66 66) cold.
Proof.
  rewrite bring_up_split. apply run_repeat_fixpoint.
  vm_compute. reflexivity.
Qed.

(** C5 (as amended).  Calibration block absent, cold start, [pll.locked]
    rising once.  After [n] edges of clk200: [cd_clk200.rst] is high for
    [n < 2] (the two flip-flops of the synchronizer), [ic_reset_counter] is
    63 up to the second edge, [65 - n] from there to the 65th and 0 after,
    and [ic_reset] is high exactly for [n < 66].  After these 66 edges and
    [n] edges of the primary clock the same holds of [cd_ic.rst],
    [ic_rdy_counter] and [cd_sys.rst].  So each loop counts 64 edges of its
    clock from the release of its domain's reset, one decrement per edge,
    and each synchronizer adds two edges before the count starts. *)
Theorem bring_up_tick_counts (n : nat) :
  (cd_clk200_rst (run false (bring_up n 0) cold) = (n <? 2)%nat
   /\ ic_reset_counter (run false (bring_up n 0) cold)
      = Z.min 63 (Z.max 0 (65 - Z.of_nat n))
   /\ ic_reset (run false (bring_up n 0) cold) = (n <? 66)%nat)
  /\ (cd_ic_rst (run false (bring_up 66 n) cold) = (n <? 2)%nat
      /\ ic_rdy_counter (run false (bring_up 66 n) cold)
         = Z.min 63 (Z.max 0 (65 - Z.of_nat n))
      /\ sys_rst (run false (bring_up 66 n) cold) = (n <? 66)%nat).
Proof.
  destruct (Nat.le_gt_cases n 66) as [L|L].
  - do 67 (destruct n as [|n]; [vm_compute; repeat split|]). lia.
  - assert (F : (cd_clk200_rst (run false (bring_up 66 0) cold) = false
                 /\ ic_reset_counter (run false (bring_up 66 0) cold) = 0
                 /\ ic_reset (run false (bring_up 66 0) cold) = false)
                /\ (cd_ic_rst (run false (bring_up 66 66) cold) = false
                    /\ ic_rdy_counter (run false (bring_up 66 66) cold) = 0
                    /\ sys_rst (run false (bring_up 66 66) cold) = false))
      by (vm_compute; repeat split).
    assert (K : exists k, n = (66 + k)%nat) by (exists (n - 66)%nat; lia).
    destruct K as [k ->].
    rewrite bring_up_stage1_done, bring_up_stage2_done.
    replace (66 + k <? 2)%nat with false
      by (symmetry; apply Nat.ltb_ge; lia).
    replace (66 + k <? 66)%nat with false
      by (symmetry; apply Nat.ltb_ge; lia).
    replace (Z.min 63 (Z.max 0 (65 - Z.of_nat (66 + k)))) with 0 by lia.
    exact F.
Qed.

(** C5, as stated, fails: 64 edges of clk200 after [pll.locked] rises
    [ic_reset] is still high (it drops on the 66th), 64 edges of the primary
    clock after that [cd_sys.rst] is still high (it drops on the 66th), and
    after 64 + 64 edges the primary domain is still in reset. *)
Lemma bring_up_takes_66_not_64 :
  (ic_reset (run false (bring_up 64 0) cold) = true
   /\ ic_reset (run false (bring_up 65 0) cold) = true
   /\ ic_reset (run false (bring_up 66 0) cold) = false)
  /\ (sys_rst (run false (bring_up 66 64) cold) = true
      /\ sys_rst (run false (bring_up 66 65) cold) = true
      /\ sys_rst (run false (bring_up 66 66) cold) = false)
  /\ sys_rst (run false (bring_up 64 64) cold) = true.
Proof. vm_compute. repeat split. Qed.

(** ** The calibration bypass *)

(** C6 (as amended).  Without the calibration block [ic_rdy] is the
    constant 1 in every state, so the primary-clock loop never waits for it:
    in a reachable state with the ic domain out of reset and [cd_sys.rst]
    still high, an edge of the primary clock either decrements
    [ic_rdy_counter] (when it is not 0) or deasserts [cd_sys.rst] (when it
    is 0).  The only delay between the two stages is the synchronizer of
    [cd_ic]: after two edges of the primary clock [cd_ic.rst] is low exactly
    when [ic_reset] is. *)
Theorem no_waiting_ready_without_sdram (s : state) :
  reachable false s -> cd_ic_rst s = false -> sys_rst s = true ->
  (forall t, ic_rdy false t = true)
  /\ (forall t, cd_ic_rst (run false [IcTick; IcTick] t) = ic_reset t)
  /\ ((ic_rdy_counter s <> 0
       /\ ic_rdy_counter (step false IcTick s) = ic_rdy_counter s - 1
       /\ sys_rst (step false IcTick s) = true)
      \/ (ic_rdy_counter s = 0
          /\ ic_rdy_counter (step false IcTick s) = 0
          /\ sys_rst (step false IcTick s) = false)).
Proof.
  intros R H1 H2. split; [reflexivity|]. split.
  - intros t.
    destruct t as [c l r f1 n1 r1 [m2 q2] n2 q].
    unfold run. cbn [fold_left]. crush_crg.
    destruct r1; reflexivity.
  - pose proof (inv_counter2 _ (reachable_inv _ _ R)) as B.
    rewrite step_ic_rdy_counter, step_sys_rst, H1, H2.
    change (ic_rdy false s) with true. cbn [andb].
    destruct (Z.eqb_spec (ic_rdy_counter s) 0) as [E|E]; cbn [negb].
    + right. auto.
    + left. rewrite wrap_pred by lia. auto.
Qed.

Lemma no_waiting_ready_without_sdram_witness :
  let s := run false (bring_up 66 2) cold in
  (forall t, ic_rdy false t = true)
  /\ (forall t, cd_ic_rst (run false [IcTick; IcTick] t) = ic_reset t)
  /\ ((ic_rdy_counter s <> 0
       /\ ic_rdy_counter (step false IcTick s) = ic_rdy_counter s - 1
       /\ sys_rst (step false IcTick s) = true)
      \/ (ic_rdy_counter s = 0
          /\ ic_rdy_counter (step false IcTick s) = 0
          /\ sys_rst (step false IcTick s) = false)).
Proof.
  apply (no_waiting_ready_without_sdram (run false (bring_up 66 2) cold)).
  - apply reachable_run. constructor.
  - vm_compute. reflexivity.
  - vm_compute. reflexivity.
Defined.

(** C6, as stated, fails in its second half: on the clk200 edge that
    completes stage 1 ([ic_reset] drops) [ic_rdy] is 1, yet the next two
    edges of the primary clock leave [ic_rdy_counter] at 63, because
    [cd_ic.rst] is still high; the first decrement comes on the third. *)
Lemma stage2_starts_after_synchronizer :
  let s := run false (bring_up 66 0) cold in
  (ic_reset (run false (bring_up 65 0) cold) = true /\ ic_reset s = false)
  /\ ic_rdy false s = true
  /\ (cd_ic_rst s = true
      /\ ic_rdy_counter (run false [IcTick] s) = 63)
  /\ (cd_ic_rst (run false [IcTick] s) = true
      /\ ic_rdy_counter (run false [IcTick; IcTick] s) = 63)
  /\ (cd_ic_rst (run false [IcTick; IcTick] s) = false
      /\ ic_rdy_counter (run false [IcTick; IcTick; IcTick] s) = 62).
Proof. vm_compute. repeat split. Qed.

(** ** Lock *)

Section Lock.

Variable with_sdram : bool.

Abbreviation step := (step with_sdram).
Abbreviation run := (run with_sdram).
Abbreviation reachable := (reachable with_sdram).

(** Everything as at power-up, with [pll.locked] low. *)
Lemma never_locks_armed (es : list event) (s : state) :
  never_locks es = true ->
  pll_locked s = false -> clk200_ars s = ars_init ->
  ic_reset_counter s = 63 -> ic_reset s = true -> ic_ars s = ars_init ->
  ic_rdy_counter s = 63 -> sys_rst s = true ->
  pll_locked (run es s) = false /\ clk200_ars (run es s) = ars_init
  /\ ic_reset_counter (run es s) = 63 /\ ic_reset (run es s) = true
  /\ ic_ars (run es s) = ars_init
  /\ ic_rdy_counter (run es s) = 63 /\ sys_rst (run es s) = true.
Proof.
  revert s; induction es as [|e es IH]; intros s H A1 A2 A3 A4 A5 A6 A7;
    [cbn; auto 10|].
  cbn [never_locks forallb] in H. apply andb_prop in H as [He Hes].
  rewrite run_cons.
  destruct s as [c l r f1 n1 r1 f2 n2 q]. cbn in A1, A2, A3, A4, A5, A6, A7.
  subst.
  apply IH; [exact Hes | ..];
    destruct e as [| | b | [|] | b]; try discriminate He;
    crush_crg; cbn; try reflexivity; try destruct b; reflexivity.
Qed.

(** C7.  In a reachable state with [pll.locked] low, [cd_clk200.rst] is
    high, no event decreases [ic_reset_counter] and an edge of clk200
    reloads it to 63 with [ic_reset] high.  And in a run from power-up in
    which [pll.locked] never goes high nothing ever moves:
    both countdowns stay at 63, [ic_reset] and [cd_sys.rst] stay high. *)
Theorem countdown1_held_until_lock
    (s : state) (c r : bool) (es : list event) :
  reachable s -> pll_locked s = false ->
  never_locks es = true ->
  (cd_clk200_rst s = true
   /\ (forall e, ic_reset_counter s <= ic_reset_counter (step e s))
   /\ ic_reset_counter (step Clk200Tick s) = 63
   /\ ic_reset (step Clk200Tick s) = true)
  /\ (ic_reset_counter (run es (power_up c false r)) = 63
      /\ ic_reset (run es (power_up c false r)) = true
      /\ ic_rdy_counter (run es (power_up c false r)) = 63
      /\ sys_rst (run es (power_up c false r)) = true
      /\ held_in_reset cd_sys (run es (power_up c false r)) = true).
Proof.
  intros R L N.
  pose proof (reachable_inv _ _ R) as I.
  assert (A : cd_clk200_rst s = true).
  { unfold cd_clk200_rst. rewrite (inv_clk200_preset _ I); [reflexivity|].
    unfold clk200_async_reset. now rewrite L. }
  split.
  - split; [exact A|]. split; [|rewrite step_ic_reset_counter,
                                   step_ic_reset, A; auto].
    intros e. rewrite step_ic_reset_counter, A.
    pose proof (inv_counter1 _ I). destruct e; lia.
  - destruct (never_locks_armed es (power_up c false r) N)
      as (_ & _ & B1 & B2 & _ & B3 & B4); try reflexivity.
    unfold held_in_reset, cd_rst. auto.
Qed.

End Lock.

Lemma countdown1_held_until_lock_witness :
  let es := [Clk200Tick; IcTick; SetCpuReset true; Clk200Tick;
             SetPllLocked false; SetCpuReset false; IcTick; Clk200Tick] in
  let s := run false [SetPllLocked false] (released false) in
  (cd_clk200_rst s = true
   /\ (forall e, ic_reset_counter s <= ic_reset_counter (step false e s))
   /\ ic_reset_counter (step false Clk200Tick s) = 63
   /\ ic_reset (step false Clk200Tick s) = true)
  /\ (ic_reset_counter (run false es (power_up false false false)) = 63
      /\ ic_reset (run false es (power_up false false false)) = true
      /\ ic_rdy_counter (run false es (power_up false false false)) = 63
      /\ sys_rst (run false es (power_up false false false)) = true
      /\ held_in_reset cd_sys (run false es (power_up false false false))
         = true).
Proof.
  apply (countdown1_held_until_lock false
           (run false [SetPllLocked false] (released false)) false false
           [Clk200Tick; IcTick; SetCpuReset true; Clk200Tick;
            SetPllLocked false; SetCpuReset false; IcTick; Clk200Tick]).
  - apply reachable_run, reachable_run. constructor.
  - vm_compute. reflexivity.
  - reflexivity.
Defined.

(** ** The reset bit of the primary domain *)

Section DomainReset.

Variable with_sdram : bool.

Abbreviation step := (step with_sdram).
Abbreviation run := (run with_sdram).
Abbreviation ic_rdy := (ic_rdy with_sdram).

(** C8 (as amended).  [cd_sys.rst] is a register of the ic domain.  Only
    an edge of the primary clock changes it: to 1 when [cd_ic.rst] is
    high, to 0 when [cd_ic.rst] is low, [ic_rdy] is high and
    [ic_rdy_counter] is 0; otherwise it keeps its value.  In particular a
    change of [cpu_reset] leaves it as it is, and an asserted [cpu_reset]
    reaches it through the chain: one edge of clk200, then one edge of the
    primary clock. *)
Theorem sys_rst_is_registered (e : event) (s : state) :
  sys_rst (step e s)
  = match e with
    | IcTick =>
        if cd_ic_rst s then true
        else if ic_rdy s && (ic_rdy_counter s =? 0) then false
             else sys_rst s
    | _ => sys_rst s
    end
  /\ (forall b, sys_rst (step (SetCpuReset b) s) = sys_rst s)
  /\ sys_rst (run [SetCpuReset true; Clk200Tick; IcTick] s) = true.
Proof.
  split; [apply step_sys_rst|]. split.
  - intros b. apply step_sys_rst.
  - apply (reset_chain with_sdram (SetCpuReset true) s [] []);
      reflexivity.
Qed.

End DomainReset.

(** C8, as stated, fails: in the released state, right after [cpu_reset] is
    asserted, the external reset request is high and [cd_sys.rst] is low, so
    [cd_sys.rst] is not [cpu_reset OR NOT released] whatever [released] is. *)
Lemma sys_rst_not_combinational :
  reachable false (step false (SetCpuReset true) (released false))
  /\ cpu_reset (step false (SetCpuReset true) (released false)) = true
  /\ sys_rst (step false (SetCpuReset true) (released false)) = false
  /\ forall sequencerReleased : bool,
       sys_rst (step false (SetCpuReset true) (released false))
       <> (cpu_reset (step false (SetCpuReset true) (released false))
           || negb sequencerReleased).
Proof.
  split; [apply reachable_step, reachable_run; constructor|].
  vm_compute. repeat split. intros _. discriminate.
Qed.

(** ** Saturation of the countdowns *)

Section Saturation.

Variable with_sdram : bool.

Abbreviation step := (step with_sdram).
Abbreviation run := (run with_sdram).
Abbreviation reachable := (reachable with_sdram).
Abbreviation ic_rdy := (ic_rdy with_sdram).

(** C9.  In every reachable state both countdowns lie in [0, 63].  On an
    edge of its clock with the domain out of reset (and, for Countdown-2,
    [ic_rdy] high) a countdown that is not 0 goes down by exactly one and a
    countdown that is 0 stays 0: the 6-bit subtraction never wraps.  Any
    other change of a countdown is the reload to 63 on an edge of its
    clock with the domain's reset high. *)
Theorem countdowns_saturate (s : state) :
  reachable s ->
  (0 <= ic_reset_counter s <= 63 /\ 0 <= ic_rdy_counter s <= 63)
  /\ (cd_clk200_rst s = false ->
      ic_reset_counter (step Clk200Tick s)
      = if ic_reset_counter s =? 0 then 0 else ic_reset_counter s - 1)
  /\ (cd_ic_rst s = false -> ic_rdy s = true ->
      ic_rdy_counter (step IcTick s)
      = if ic_rdy_counter s =? 0 then 0 else ic_rdy_counter s - 1)
  /\ (forall e,
       ic_reset_counter (step e s) = ic_reset_counter s
       \/ (ic_reset_counter s <> 0
           /\ ic_reset_counter (step e s) = ic_reset_counter s - 1)
       \/ (e = Clk200Tick /\ cd_clk200_rst s = true
           /\ ic_reset_counter (step e s) = 63))
  /\ (forall e,
       ic_rdy_counter (step e s) = ic_rdy_counter s
       \/ (ic_rdy_counter s <> 0
           /\ ic_rdy_counter (step e s) = ic_rdy_counter s - 1)
       \/ (e = IcTick /\ cd_ic_rst s = true
           /\ ic_rdy_counter (step e s) = 63)).
Proof.
  intros R. pose proof (reachable_inv _ _ R) as I.
  pose proof (inv_counter1 _ I) as B1.
  pose proof (inv_counter2 _ I) as B2.
  split; [auto|]. split; [|split; [|split]].
  - intros H. rewrite step_ic_reset_counter, H.
    destruct (Z.eqb_spec (ic_reset_counter s) 0); cbn [negb]; [auto|].
    apply wrap_pred. lia.
  - intros H1 H2. rewrite step_ic_rdy_counter, H1, H2. cbn [andb].
    destruct (Z.eqb_spec (ic_rdy_counter s) 0); cbn [negb]; [auto|].
    apply wrap_pred. lia.
  - intros e. rewrite step_ic_reset_counter.
    destruct e; auto.
    destruct (cd_clk200_rst s); [auto|].
    destruct (Z.eqb_spec (ic_reset_counter s) 0); cbn [negb]; [auto|].
    right; left. split; [assumption|]. apply wrap_pred. lia.
  - intros e. rewrite step_ic_rdy_counter.
    destruct e; auto.
    destruct (cd_ic_rst s); [auto|].
    destruct (ic_rdy s); cbn [andb]; [|auto].
    destruct (Z.eqb_spec (ic_rdy_counter s) 0); cbn [negb]; [auto|].
    right; left. split; [assumption|]. apply wrap_pred. lia.
Qed.

End Saturation.

Lemma countdowns_saturate_witness :
  (0 <= ic_reset_counter (released false) <= 63
   /\ 0 <= ic_rdy_counter (released false) <= 63)
  /\ ic_reset_counter (step false Clk200Tick (released false)) = 0
  /\ ic_rdy_counter (step false IcTick (released false)) = 0.
Proof.
  destruct (countdowns_saturate false (released false)
              ltac:(apply reachable_run; constructor))
    as (A & B & C & _).
  exact (conj A (conj (B eq_refl) (C eq_refl eq_refl))).
Defined.

(** ** Domains without a reset line *)

(** C10.  [cd_sys4x] and [cd_pll4x] are created with [reset_less=True]: they
    have no reset line, no [AsyncResetSynchronizer] targets them, and in no
    state are they held in reset, not even at power-up, under [cpu_reset] or
    without lock, where [cd_sys], [cd_clk200] and [cd_ic] all are.  A domain
    has a reset line exactly when it is not [reset_less]. *)
Theorem reset_less_domains_never_in_reset :
  (reset_less cd_sys4x = true /\ reset_less cd_pll4x = true)
  /\ (In cd_sys4x clock_domains /\ In cd_pll4x clock_domains)
  /\ (~ In cd_sys4x synchronized_domains
      /\ ~ In cd_pll4x synchronized_domains)
  /\ (forall d s, cd_rst d s = None <-> reset_less d = true)
  /\ (forall s, held_in_reset cd_sys4x s = false
                /\ held_in_reset cd_pll4x s = false)
  /\ (forall c l r,
        held_in_reset cd_sys (power_up c l r) = true
        /\ held_in_reset cd_clk200 (power_up c l r) = true
        /\ held_in_reset cd_ic (power_up c l r) = true).
Proof.
  split; [split; reflexivity|].
  split; [split; cbn; tauto|].
  split; [split; cbn; intuition discriminate|].
  split; [|split; intros; repeat split].
  intros d s. destruct d; cbn; split; intros H; try reflexivity;
    discriminate H.
Qed.

(** ** Recovery: the sequencer always gets to the release *)

Lemma ic_rdy_unfold (w : bool) (s : state) :
  ic_rdy w s = if w then idelayctrl_rdy s else true.
Proof. reflexivity. Qed.

Section Recovery.

Variable with_sdram : bool.

Abbreviation step := (step with_sdram).
Abbreviation run := (run with_sdram).
Abbreviation reachable := (reachable with_sdram).
Abbreviation ic_rdy := (ic_rdy with_sdram).

Lemma tick_keeps_inputs (e : event) (s : state) :
  is_clk200_tick e || is_ic_tick e = true ->
  cpu_reset (step e s) = cpu_reset s
  /\ pll_locked (step e s) = pll_locked s
  /\ idelayctrl_rdy (step e s) = idelayctrl_rdy s.
Proof. destruct e; try discriminate; intros _; repeat split. Qed.

Lemma clk200_edges_left_bound (s : state) :
  crg_inv s -> (clk200_edges_left s <= 66)%nat.
Proof.
  intros I. pose proof (inv_counter1 _ I).
  unfold clk200_edges_left, ars_latency.
  destruct (rst_meta (clk200_ars s)), (rst (clk200_ars s)), (ic_reset s);
    lia.
Qed.

Lemma ic_edges_left_bound (s : state) :
  crg_inv s -> (ic_edges_left s <= 66)%nat.
Proof.
  intros I. pose proof (inv_counter2 _ I).
  unfold ic_edges_left, ars_latency.
  destruct (rst_meta (ic_ars s)), (rst (ic_ars s)), (sys_rst s); lia.
Qed.

Lemma clk200_edges_left_tick (s : state) :
  crg_inv s -> clk200_async_reset s = false ->
  clk200_edges_left (step Clk200Tick s) = pred (clk200_edges_left s).
Proof.
  intros I A. pose proof (inv_counter1 _ I) as B.
  destruct s as [c l r [m1 q1] n1 r1 f2 n2 q].
  unfold clk200_edges_left, ars_latency. crush_crg. rewrite A.
  destruct m1, q1; cbn -[wrap Z.to_nat]; try reflexivity.
  destruct (Z.eqb_spec n1 0) as [E|E]; cbn -[wrap Z.to_nat].
  - subst. now destruct r1.
  - rewrite wrap_pred by lia. destruct r1; [|reflexivity].
    cbn [pred]. lia.
Qed.

Lemma clk200_edges_left_ic_tick (s : state) :
  clk200_async_reset s = false ->
  clk200_edges_left (step IcTick s) = clk200_edges_left s.
Proof.
  intros A. destruct s as [c l r [m1 q1] n1 r1 f2 n2 q].
  unfold clk200_edges_left. crush_crg. now rewrite A.
Qed.

Lemma clk200_done (s : state) :
  clk200_edges_left s = O ->
  clk200_ars s = mk_ars false false /\ ic_reset s = false.
Proof.
  destruct s as [c l r [m1 q1] n1 r1 f2 n2 q].
  unfold clk200_edges_left, ars_latency. cbn.
  destruct m1, q1, r1; try discriminate; auto.
Qed.

Lemma ic_edges_left_tick (s : state) :
  crg_inv s -> ic_reset s = false -> ic_rdy s = true ->
  ic_edges_left (step IcTick s) = pred (ic_edges_left s).
Proof.
  intros I A R. pose proof (inv_counter2 _ I) as B.
  rewrite ic_rdy_unfold in R.
  destruct s as [c l r f1 n1 r1 [m2 q2] n2 q].
  unfold ic_edges_left, ars_latency. crush_crg. subst r1.
  rewrite R.
  destruct m2, q2; cbn -[wrap Z.to_nat]; try reflexivity.
  destruct (Z.eqb_spec n2 0) as [E|E]; cbn -[wrap Z.to_nat].
  - subst. now destruct q.
  - rewrite wrap_pred by lia. destruct q; [|reflexivity].
    cbn [pred]. lia.
Qed.

Lemma ic_edges_left_clk200_tick (s : state) :
  clk200_async_reset s = false -> clk200_edges_left s = O ->
  ic_edges_left (step Clk200Tick s) = ic_edges_left s.
Proof.
  intros A D. destruct (clk200_done _ D) as [D1 D2].
  destruct s as [c l r f1 n1 r1 f2 n2 q]. cbn in D1, D2. subst.
  unfold ic_edges_left. crush_crg.
  now destruct (n1 =? 0).
Qed.

Lemma ic_done (s : state) :
  ic_edges_left s = O ->
  ic_ars s = mk_ars false false /\ sys_rst s = false.
Proof.
  destruct s as [c l r f1 n1 r1 [m2 q2] n2 q].
  unfold ic_edges_left, ars_latency. cbn.
  destruct m2, q2, q; try discriminate; auto.
Qed.

(** Stage 1 over a run of clock edges. *)
Lemma run_stage1 (es : list event) (s : state) :
  ticks_only es = true -> crg_inv s -> clk200_async_reset s = false ->
  crg_inv (run es s)
  /\ clk200_async_reset (run es s) = false
  /\ idelayctrl_rdy (run es s) = idelayctrl_rdy s
  /\ clk200_edges_left (run es s)
     = (clk200_edges_left s - count_clk200 es)%nat.
Proof.
  revert s; induction es as [|e es IH]; intros s T I A.
  - refine (conj I (conj A (conj eq_refl _))).
    symmetry. apply Nat.sub_0_r.
  - cbn [ticks_only forallb] in T. apply andb_prop in T as [Te Tes].
    rewrite run_cons.
    destruct (tick_keeps_inputs e s Te) as (K1 & K2 & K3).
    assert (A' : clk200_async_reset (step e s) = false)
      by (unfold clk200_async_reset in *; now rewrite K1, K2).
    destruct (IH (step e s) Tes (crg_inv_step _ e s I) A')
      as (J1 & J2 & J3 & J4).
    refine (conj J1 (conj J2 (conj _ _))); [congruence|].
    rewrite J4. unfold count_clk200.
    destruct e; try discriminate Te; cbn [filter is_clk200_tick length].
    + rewrite clk200_edges_left_tick by assumption. lia.
    + rewrite clk200_edges_left_ic_tick by assumption. reflexivity.
Qed.

(** Stage 2 over a run of clock edges, once stage 1 is over. *)
Lemma run_stage2 (es : list event) (s : state) :
  ticks_only es = true -> crg_inv s -> clk200_async_reset s = false ->
  clk200_edges_left s = O -> ic_rdy s = true ->
  clk200_async_reset (run es s) = false
  /\ clk200_edges_left (run es s) = O
  /\ ic_edges_left (run es s) = (ic_edges_left s - count_ic es)%nat.
Proof.
  revert s; induction es as [|e es IH]; intros s T I A D R.
  - refine (conj A (conj D _)). symmetry. apply Nat.sub_0_r.
  - cbn [ticks_only forallb] in T. apply andb_prop in T as [Te Tes].
    rewrite run_cons.
    destruct (tick_keeps_inputs e s Te) as (K1 & K2 & K3).
    assert (A' : clk200_async_reset (step e s) = false)
      by (unfold clk200_async_reset in *; now rewrite K1, K2).
    assert (R' : ic_rdy (step e s) = true)
      by (rewrite ic_rdy_unfold in *; now rewrite K3).
    assert (D' : clk200_edges_left (step e s) = O).
    { destruct e; try discriminate Te.
      - rewrite clk200_edges_left_tick, D by assumption. reflexivity.
      - rewrite clk200_edges_left_ic_tick by assumption. exact D. }
    destruct (IH (step e s) Tes (crg_inv_step _ e s I) A' D' R')
      as (J1 & J2 & J3).
    refine (conj J1 (conj J2 _)).
    rewrite J3. unfold count_ic.
    destruct e; try discriminate Te; cbn [filter is_ic_tick length].
    + rewrite ic_edges_left_clk200_tick by assumption. reflexivity.
    + rewrite ic_edges_left_tick; try assumption; [lia|].
      now destruct (clk200_done _ D).
Qed.

(** X1.  From any reachable state, once [pll.locked] is high, [cpu_reset]
    low and [ic_rdy] high, and as long as the inputs do not move, 66 edges
    of clk200 followed by 66 edges of the primary clock (each group
    interleaved with any number of edges of the other clock) release the
    primary domain and leave the whole reset chain at rest. *)
Theorem release_within_66_and_66_edges
    (s : state) (es1 es2 : list event) :
  reachable s ->
  pll_locked s = true -> cpu_reset s = false -> ic_rdy s = true ->
  ticks_only es1 = true -> ticks_only es2 = true ->
  (66 <= count_clk200 es1)%nat -> (66 <= count_ic es2)%nat ->
  sys_rst (run (es1 ++ es2) s) = false
  /\ ic_reset (run (es1 ++ es2) s) = false
  /\ quiescent (run (es1 ++ es2) s) = true.
Proof.
  intros R L C Y T1 T2 N1 N2.
  pose proof (reachable_inv _ _ R) as I.
  assert (A : clk200_async_reset s = false)
    by (unfold clk200_async_reset; now rewrite L, C).
  destruct (run_stage1 es1 s T1 I A) as (I1 & A1 & Y1 & M1).
  pose proof (clk200_edges_left_bound s I) as B1.
  assert (D1 : clk200_edges_left (run es1 s) = O) by lia.
  assert (Y1' : ic_rdy (run es1 s) = true)
    by (rewrite ic_rdy_unfold in *; now rewrite Y1).
  destruct (run_stage2 es2 (run es1 s) T2 I1 A1 D1 Y1') as (A2 & D2 & M2).
  pose proof (ic_edges_left_bound _ I1) as B2.
  assert (E2 : ic_edges_left (run es2 (run es1 s)) = O) by lia.
  rewrite run_app.
  destruct (clk200_done _ D2) as [F1 F2].
  destruct (ic_done _ E2) as [G1 G2].
  repeat split; auto.
  unfold quiescent. rewrite A2, F1, F2, G1. reflexivity.
Qed.

End Recovery.

Lemma release_within_66_and_66_edges_witness :
  let s := run true [SetCpuReset true; Clk200Tick; SetCpuReset false]
             (released true) in
  let es1 := repeat Clk200Tick 66 ++ [IcTick] in
  let es2 := IcTick :: Clk200Tick :: repeat IcTick 65 in
  ic_reset s = true
  /\ sys_rst (run true (es1 ++ es2) s) = false
  /\ ic_reset (run true (es1 ++ es2) s) = false
  /\ quiescent (run true (es1 ++ es2) s) = true.
Proof.
  split; [vm_compute; reflexivity|].
  apply (release_within_66_and_66_edges true
           (run true [SetCpuReset true; Clk200Tick; SetCpuReset false]
              (released true))
           (repeat Clk200Tick 66 ++ [IcTick])
           (IcTick :: Clk200Tick :: repeat IcTick 65)).
  - apply reachable_run, reachable_run. constructor.
  - vm_compute; reflexivity.
  - vm_compute; reflexivity.
  - vm_compute; reflexivity.
  - vm_compute; reflexivity.
  - vm_compute; reflexivity.
  - vm_compute. lia.
  - vm_compute. lia.
Defined.

(** ** Width of the reset pulses *)

Section PulseWidth.

Variable with_sdram : bool.

Abbreviation step := (step with_sdram).
Abbreviation run := (run with_sdram).
Abbreviation reachable := (reachable with_sdram).

Lemma ic_reset_held (es : list event) (s : state) :
  crg_inv s -> ic_reset s = true ->
  Z.of_nat (count_clk200 es) <= ic_reset_counter s ->
  ic_reset (run es s) = true.
Proof.
  revert s; induction es as [|e es IH]; intros s I H N; [exact H|].
  rewrite run_cons. pose proof (inv_counter1 _ I) as B.
  apply IH; [now apply crg_inv_step | |].
  - rewrite step_ic_reset.
    destruct e; auto.
    destruct (cd_clk200_rst s); [reflexivity|].
    unfold count_clk200 in N. cbn [filter is_clk200_tick length] in N.
    destruct (Z.eqb_spec (ic_reset_counter s) 0); [lia|assumption].
  - rewrite step_ic_reset_counter. unfold count_clk200 in *.
    destruct e; cbn [filter is_clk200_tick length] in N; try assumption.
    destruct (cd_clk200_rst s); [lia|].
    destruct (Z.eqb_spec (ic_reset_counter s) 0); cbn [negb]; [lia|].
    rewrite wrap_pred by lia. lia.
Qed.

Lemma sys_rst_held (es : list event) (s : state) :
  crg_inv s -> sys_rst s = true ->
  Z.of_nat (count_ic es) <= ic_rdy_counter s ->
  sys_rst (run es s) = true.
Proof.
  revert s; induction es as [|e es IH]; intros s I H N; [exact H|].
  rewrite run_cons. pose proof (inv_counter2 _ I) as B.
  apply IH; [now apply crg_inv_step | |].
  - rewrite step_sys_rst.
    destruct e; auto.
    destruct (cd_ic_rst s); [reflexivity|].
    unfold count_ic in N. cbn [filter is_ic_tick length] in N.
    destruct (Z.eqb_spec (ic_rdy_counter s) 0); [lia|].
    now rewrite andb_false_r.
  - rewrite step_ic_rdy_counter. unfold count_ic in *.
    destruct e; cbn [filter is_ic_tick length] in N; try assumption.
    destruct (cd_ic_rst s); [lia|].
    destruct (ic_rdy with_sdram s); cbn [andb]; [|lia].
    destruct (Z.eqb_spec (ic_rdy_counter s) 0); cbn [negb]; [lia|].
    rewrite wrap_pred by lia. lia.
Qed.

(** X2.  Whatever the inputs do, a reset that is asserted stays asserted for
    at least as many edges of its clock as its countdown shows, plus one:
    in a reachable state with [ic_reset] high, [ic_reset] is still high
    after any run with at most [ic_reset_counter] edges of clk200, and
    likewise [cd_sys.rst] with [ic_rdy_counter] and the primary clock.
    Right after a reload (countdown 63) this is a pulse of at least 64
    edges. *)
Theorem reset_pulses_last_the_countdown (s : state) (es : list event) :
  reachable s ->
  (ic_reset s = true ->
   Z.of_nat (count_clk200 es) <= ic_reset_counter s ->
   ic_reset (run es s) = true)
  /\ (sys_rst s = true ->
      Z.of_nat (count_ic es) <= ic_rdy_counter s ->
      sys_rst (run es s) = true).
Proof.
  intros R. pose proof (reachable_inv _ _ R) as I.
  split; intros; [now apply ic_reset_held | now apply sys_rst_held].
Qed.

End PulseWidth.

Lemma reset_pulses_last_the_countdown_witness :
  let s := run true [SetIdelayRdy true; SetPllLocked true; Clk200Tick;
                     Clk200Tick] cold in
  let es := repeat Clk200Tick 63 ++ repeat IcTick 63 in
  (ic_reset_counter s = 63 /\ ic_rdy_counter s = 63)
  /\ ic_reset (run true es s) = true
  /\ sys_rst (run true es s) = true.
Proof.
  destruct (reset_pulses_last_the_countdown true
              (run true [SetIdelayRdy true; SetPllLocked true; Clk200Tick;
                         Clk200Tick] cold)
              (repeat Clk200Tick 63 ++ repeat IcTick 63)
              ltac:(apply reachable_run; constructor)) as [A B].
  split; [split; reflexivity|].
  split; [apply A | apply B]; vm_compute; first [reflexivity | discriminate].
Defined.

(** ** Loss of lock, and the state after a reset *)

Lemma run_nil (w : bool) (s : state) : run w [] s = s.
Proof. reflexivity. Qed.

Section WarmReset.

Variable with_sdram : bool.

Abbreviation step := (step with_sdram).
Abbreviation run := (run with_sdram).

(** X3.  A loss of [pll.locked] re-arms the sequencer through the same chain
    as [cpu_reset]: from any state, the next edge of clk200 reloads
    [ic_reset_counter] to 63 and raises [ic_reset] and [cd_ic.rst]; the
    next edge of the primary clock after it reloads [ic_rdy_counter] to 63
    and raises [cd_sys.rst], even if lock has come back in between. *)
Theorem lock_loss_rearms_in_chain (s : state) (es1 es2 : list event) :
  no_clk200_tick es1 = true ->
  no_ic_tick es2 = true ->
  let s1 := run (SetPllLocked false :: es1 ++ [Clk200Tick]) s in
  let s2 := run (es2 ++ [IcTick]) s1 in
  (ic_reset s1 = true /\ ic_reset_counter s1 = 63 /\ cd_ic_rst s1 = true)
  /\ (ic_rdy_counter s2 = 63 /\ sys_rst s2 = true).
Proof.
  intros H1 H2.
  destruct (reset_chain with_sdram (SetPllLocked false) s es1 es2
              eq_refl H1 H2) as (A & B & _).
  exact (conj A B).
Qed.

(** X4.  A reset brings back the power-up state exactly: from any state,
    [cpu_reset] asserted, one edge of clk200, one edge of the primary clock
    and [cpu_reset] released leave every register and both synchronizers as
    at power-up (with [pll.locked] and the ready input as they are), and so
    does a loss of lock over the same two edges.  What follows a reset is
    therefore what follows a cold start. *)
Theorem reset_restores_power_up (s : state) (es : list event) :
  run [SetCpuReset true; Clk200Tick; IcTick; SetCpuReset false] s
  = power_up false (pll_locked s) (idelayctrl_rdy s)
  /\ run [SetPllLocked false; Clk200Tick; IcTick] s
     = power_up (cpu_reset s) false (idelayctrl_rdy s)
  /\ run ([SetCpuReset true; Clk200Tick; IcTick; SetCpuReset false] ++ es) s
     = run es (power_up false (pll_locked s) (idelayctrl_rdy s)).
Proof.
  assert (A : run [SetCpuReset true; Clk200Tick; IcTick; SetCpuReset false] s
              = power_up false (pll_locked s) (idelayctrl_rdy s)).
  { destruct s as [c l r [m1 q1] n1 r1 [m2 q2] n2 q].
    destruct l, c; vm_compute; reflexivity. }
  split; [exact A|]. split.
  - destruct s as [c l r [m1 q1] n1 r1 [m2 q2] n2 q].
    destruct l, c; vm_compute; reflexivity.
  - rewrite run_app, A. reflexivity.
Qed.

End WarmReset.

Lemma lock_loss_rearms_in_chain_witness :
  let s1 := run false (SetPllLocked false
                         :: [SetPllLocked true; IcTick] ++ [Clk200Tick])
              (released false) in
  let s2 := run false ([Clk200Tick] ++ [IcTick]) s1 in
  (ic_reset s1 = true /\ ic_reset_counter s1 = 63 /\ cd_ic_rst s1 = true)
  /\ (ic_rdy_counter s2 = 63 /\ sys_rst s2 = true).
Proof.
  apply (lock_loss_rearms_in_chain false (released false)
           [SetPllLocked true; IcTick] [Clk200Tick]); reflexivity.
Defined.

(** ** The ready input without the calibration block *)

Lemma step_forget_rdy (e : event) (s t : state) :
  set_idelayctrl_rdy false s = set_idelayctrl_rdy false t ->
  set_idelayctrl_rdy false (step false e s)
  = set_idelayctrl_rdy false (step false e t).
Proof.
  destruct s as [c l r f1 n1 r1 f2 n2 q], t as [c' l' r' f1' n1' r1' f2' n2' q'].
  unfold set_idelayctrl_rdy. cbn. intros H. injection H as -> -> -> -> -> -> -> ->.
  destruct e; reflexivity.
Qed.

Lemma step_rdy_event_forgotten (e : event) (s : state) :
  crg_inv s -> is_rdy_event e = true ->
  set_idelayctrl_rdy false (step false e s) = set_idelayctrl_rdy false s.
Proof.
  intros I. destruct e; try discriminate. intros _.
  pose proof (inv_clk200_preset _ I) as P1.
  pose proof (inv_ic_preset _ I) as P2.
  destruct s as [c l r f1 n1 r1 f2 n2 q].
  unfold set_idelayctrl_rdy. crush_crg.
  destruct (negb l || c); [rewrite P1 by reflexivity|];
    (destruct r1; [rewrite P2 by reflexivity|]); reflexivity.
Qed.

Lemma run_forget_rdy (es : list event) (s t : state) :
  crg_inv s ->
  set_idelayctrl_rdy false s = set_idelayctrl_rdy false t ->
  set_idelayctrl_rdy false (run false es s)
  = set_idelayctrl_rdy false
      (run false (filter (fun e => negb (is_rdy_event e)) es) t).
Proof.
  revert s t; induction es as [|e es IH]; intros s t I H; [exact H|].
  rewrite run_cons. cbn [filter].
  destruct (is_rdy_event e) eqn:E; cbn [negb].
  - apply IH; [now apply crg_inv_step|].
    now rewrite step_rdy_event_forgotten.
  - rewrite run_cons. apply IH; [now apply crg_inv_step|].
    now apply step_forget_rdy.
Qed.

(** X5.  Without the calibration block the [RDY] input has no influence:
    from any reachable state, a run and the same run with every change of
    [RDY] removed end with the same registers, synchronizers and other
    inputs (in particular the same [cd_sys.rst]).  With the block present
    this is false: the cold start that releases with [RDY] high stays in
    reset without it. *)
Theorem rdy_ignored_without_sdram (es : list event) (s : state) :
  reachable false s ->
  set_idelayctrl_rdy false (run false es s)
  = set_idelayctrl_rdy false
      (run false (filter (fun e => negb (is_rdy_event e)) es) s)
  /\ sys_rst (run false es s)
     = sys_rst (run false (filter (fun e => negb (is_rdy_event e)) es) s)
  /\ (sys_rst (run true (SetIdelayRdy true :: bring_up 66 66) cold) = false
      /\ sys_rst (run true
                    (filter (fun e => negb (is_rdy_event e))
                       (SetIdelayRdy true :: bring_up 66 66)) cold) = true).
Proof.
  intros R.
  assert (A := run_forget_rdy es s s (reachable_inv _ _ R) eq_refl).
  split; [exact A|]. split.
  - change (sys_rst (run false es s))
      with (sys_rst (set_idelayctrl_rdy false (run false es s))).
    rewrite A. reflexivity.
  - vm_compute. split; reflexivity.
Qed.

Lemma rdy_ignored_without_sdram_witness :
  let es := [SetIdelayRdy true; IcTick; SetIdelayRdy false; IcTick;
             Clk200Tick; SetIdelayRdy true] in
  let s := run false (bring_up 66 30) cold in
  sys_rst (run false es s)
  = sys_rst (run false [IcTick; IcTick; Clk200Tick] s)
  /\ ic_rdy_counter (run false es s) = 33.
Proof.
  split; [|vm_compute; reflexivity].
  apply (rdy_ignored_without_sdram
           [SetIdelayRdy true; IcTick; SetIdelayRdy false; IcTick;
            Clk200Tick; SetIdelayRdy true]
           (run false (bring_up 66 30) cold)).
  apply reachable_run. constructor.
Defined.

(** ** Registers and clocks *)

Section Ownership.

Variable with_sdram : bool.

Abbreviation step := (step with_sdram).
Abbreviation run := (run with_sdram).

(** X6.  Every register changes only on an edge of its own clock, resets
    included.  Over a run without an edge of clk200, whatever the inputs and
    the primary clock do, [ic_reset_counter] and [ic_reset] keep their
    values, and a reset of the clk200 domain that is pending ([cd_clk200.rst]
    high) stays pending; over a run without an edge of the primary clock the
    same holds of [ic_rdy_counter], [cd_sys.rst] and [cd_ic.rst]. *)
Theorem registers_need_their_clock (es : list event) (s : state) :
  (no_clk200_tick es = true ->
   ic_reset_counter (run es s) = ic_reset_counter s
   /\ ic_reset (run es s) = ic_reset s
   /\ (cd_clk200_rst s = true -> cd_clk200_rst (run es s) = true))
  /\ (no_ic_tick es = true ->
      ic_rdy_counter (run es s) = ic_rdy_counter s
      /\ sys_rst (run es s) = sys_rst s
      /\ (cd_ic_rst s = true -> cd_ic_rst (run es s) = true)).
Proof.
  split; intros H.
  - destruct (run_no_clk200_tick with_sdram es s H) as (A & B & C). auto.
  - destruct (run_no_ic_tick with_sdram es s H) as (A & B & C). auto.
Qed.

End Ownership.

Lemma registers_need_their_clock_witness :
  let es1 := [SetCpuReset true; IcTick; SetPllLocked false; IcTick] in
  let es2 := [SetCpuReset true; Clk200Tick; SetCpuReset false; Clk200Tick] in
  (ic_reset_counter (run false es1 (released false)) = 0
   /\ ic_reset (run false es1 (released false)) = false)
  /\ (ic_rdy_counter (run false es2 (released false)) = 0
      /\ sys_rst (run false es2 (released false)) = false).
Proof.
  destruct (registers_need_their_clock false
              [SetCpuReset true; IcTick; SetPllLocked false; IcTick]
              (released false)) as [A _].
  destruct (registers_need_their_clock false
              [SetCpuReset true; Clk200Tick; SetCpuReset false; Clk200Tick]
              (released false)) as [_ B].
  destruct (A eq_refl) as (A1 & A2 & _).
  destruct (B eq_refl) as (B1 & B2 & _).
  exact (conj (conj A1 A2) (conj B1 B2)).
Defined.

(** ** Waiting for the calibration block *)

Section Parked.

Variable with_sdram : bool.

Abbreviation step := (step with_sdram).
Abbreviation run := (run with_sdram).

(** Held in reset for want of [RDY]. *)
Lemma run_never_ready (es : list event) (s : state) :
  with_sdram = true -> never_ready es = true ->
  crg_inv s -> idelayctrl_rdy s = false -> sys_rst s = true ->
  idelayctrl_rdy (run es s) = false
  /\ sys_rst (run es s) = true
  /\ ic_rdy_counter s <= ic_rdy_counter (run es s).
Proof.
  intros W. revert s; induction es as [|e es IH]; intros s N I Y R.
  - cbn. repeat split; auto. lia.
  - cbn [never_ready forallb] in N. apply andb_prop in N as [Ne Nes].
    rewrite run_cons. pose proof (inv_counter2 _ I) as B.
    assert (Y' : idelayctrl_rdy (step e s) = false)
      by (destruct e as [| | b | b | [|]]; try discriminate Ne;
          first [exact Y | reflexivity]).
    assert (F : ic_rdy with_sdram s = false)
      by (rewrite ic_rdy_unfold, W; exact Y).
    assert (R' : sys_rst (step e s) = true).
    { rewrite step_sys_rst, F, R. destruct e; auto.
      now destruct (cd_ic_rst s). }
    destruct (IH (step e s) Nes (crg_inv_step _ e s I) Y' R')
      as (J1 & J2 & J3).
    split; [exact J1|]. split; [exact J2|].
    rewrite step_ic_rdy_counter, F in J3.
    destruct e; try exact J3.
    destruct (cd_ic_rst s); cbn [andb] in J3; lia.
Qed.

(** X10.  With the calibration block present, for as long as [RDY] stays
    low the primary domain stays in reset and [ic_rdy_counter] never goes
    down, whatever the clocks and the other inputs do: the sequencer parks
    before its second countdown. *)
Theorem never_ready_never_released (s : state) (es : list event) :
  with_sdram = true ->
  reachable with_sdram s ->
  idelayctrl_rdy s = false -> sys_rst s = true ->
  never_ready es = true ->
  sys_rst (run es s) = true
  /\ ic_rdy_counter s <= ic_rdy_counter (run es s).
Proof.
  intros W R Y H N.
  destruct (run_never_ready es s W N (reachable_inv _ _ R) Y H)
    as (_ & A & B).
  exact (conj A B).
Qed.

End Parked.

Lemma never_ready_never_released_witness :
  let s := run true (bring_up 66 10) cold in
  let es := repeat IcTick 70 ++ [Clk200Tick; SetIdelayRdy false; IcTick] in
  cd_ic_rst s = false
  /\ sys_rst (run true es s) = true
  /\ ic_rdy_counter s <= ic_rdy_counter (run true es s).
Proof.
  split; [vm_compute; reflexivity|].
  apply (never_ready_never_released true
           (run true (bring_up 66 10) cold)
           (repeat IcTick 70 ++ [Clk200Tick; SetIdelayRdy false; IcTick])).
  - reflexivity.
  - apply reachable_run. constructor.
  - vm_compute. reflexivity.
  - vm_compute. reflexivity.
  - vm_compute. reflexivity.
Defined.

(** ** The LED counters of [BaseSoC] *)

Lemma wrap32_range (v : Z) : 0 <= wrap32 v < 2 ^ 32.
Proof. unfold wrap32. apply Z.mod_pos_bound. reflexivity. Qed.

Lemma wrap32_succ (v n : Z) : wrap32 (wrap32 (v + 1) + n) = wrap32 (v + (1 + n)).
Proof.
  unfold wrap32. rewrite Z.add_mod_idemp_l by discriminate.
  f_equal. lia.
Qed.

Lemma testbit_wrap32 (v k : Z) :
  0 <= k < 32 -> Z.testbit (wrap32 v) k = Z.odd (v / 2 ^ k).
Proof.
  intros H. unfold wrap32.
  rewrite Z.mod_pow2_bits_low by lia.
  rewrite Z.testbit_odd, Z.shiftr_div_pow2 by lia. reflexivity.
Qed.

Section Leds.

Variable with_sdram : bool.

Abbreviation step := (step with_sdram).
Abbreviation run := (run with_sdram).
Abbreviation soc_step := (soc_step with_sdram).
Abbreviation soc_run := (soc_run with_sdram).

Lemma soc_run_cons (e : event) (es : list event) (t : soc_state) :
  soc_run (e :: es) t = soc_run es (soc_step e t).
Proof. reflexivity. Qed.

Lemma crg_soc_step (e : event) (t : soc_state) :
  crg (soc_step e t) = step e (crg t).
Proof. destruct e; reflexivity. Qed.

Lemma crg_soc_run (es : list event) (t : soc_state) :
  crg (soc_run es t) = run es (crg t).
Proof.
  revert t; induction es as [|e es IH]; intros t; [reflexivity|].
  rewrite soc_run_cons, IH, crg_soc_step. reflexivity.
Qed.

Lemma soc_step_counters (e : event) (t : soc_state) :
  led_counter_n (soc_step e t)
  = (if is_ic_tick e
     then if sys_rst (crg t) then 0 else wrap32 (led_counter_n t + 1)
     else led_counter_n t)
  /\ led_counter (soc_step e t)
     = (if is_ic_tick e
        then if sys_rst (crg t) then 0 else wrap32 (led_counter t + 1)
        else led_counter t).
Proof.
  destruct e; cbn [is_ic_tick]; try (split; reflexivity).
  change (soc_step IcTick t)
    with (mk_soc (step IcTick (crg t)) (fst (sync_sys t)) (snd (sync_sys t))).
  cbn [led_counter_n led_counter]. unfold sync_sys, insert_reset.
  destruct (sys_rst (crg t)); split; reflexivity.
Qed.

Lemma soc_run_counters_equal (es : list event) (t : soc_state) :
  led_counter t = led_counter_n t -> 0 <= led_counter_n t < 2 ^ 32 ->
  led_counter (soc_run es t) = led_counter_n (soc_run es t)
  /\ 0 <= led_counter_n (soc_run es t) < 2 ^ 32.
Proof.
  revert t; induction es as [|e es IH]; intros t E B; [auto|].
  rewrite soc_run_cons.
  destruct (soc_step_counters e t) as [A1 A2].
  apply IH.
  - rewrite A1, A2, E. reflexivity.
  - rewrite A1. destruct (is_ic_tick e); [|exact B].
    destruct (sys_rst (crg t)); [|apply wrap32_range].
    split; [lia | reflexivity].
Qed.

Lemma soc_run_dark (es : list event) (t : soc_state) :
  never_locks es = true ->
  pll_locked (crg t) = false -> clk200_ars (crg t) = ars_init ->
  ic_reset_counter (crg t) = 63 -> ic_reset (crg t) = true ->
  ic_ars (crg t) = ars_init ->
  ic_rdy_counter (crg t) = 63 -> sys_rst (crg t) = true ->
  led_counter_n t = 0 -> led_counter t = 0 ->
  led_counter_n (soc_run es t) = 0 /\ led_counter (soc_run es t) = 0.
Proof.
  revert t; induction es as [|e es IH];
    intros t N H1 H2 H3 H4 H5 H6 H7 Z1 Z2; [auto|].
  cbn [never_locks forallb] in N. apply andb_prop in N as [Ne Nes].
  rewrite soc_run_cons.
  assert (Ne' : never_locks [e] = true)
    by (cbn [never_locks forallb]; now rewrite Ne).
  destruct (never_locks_armed with_sdram [e] (crg t) Ne' H1 H2 H3 H4 H5 H6 H7)
    as (K1 & K2 & K3 & K4 & K5 & K6 & K7).
  destruct (soc_step_counters e t) as [A1 A2].
  apply IH; rewrite ?crg_soc_step; try assumption.
  - rewrite A1, H7, Z1. now destruct (is_ic_tick e).
  - rewrite A2, H7, Z2. now destruct (is_ic_tick e).
Qed.

(** X7.  In every state reached from power-up the two LED counters are
    equal and lie in [0, 2^32), so LED 1 shows bit 26 of the very count
    whose bit 25 LED 0 shows.  As long as [pll.locked] never goes high
    (starting low) both counters stay 0 and the three LEDs stay dark. *)
Theorem led_counters_equal_and_dark_without_lock
    (c l r : bool) (es : list event) :
  (led_counter (soc_run es (soc_power_up c l r))
   = led_counter_n (soc_run es (soc_power_up c l r))
   /\ 0 <= led_counter_n (soc_run es (soc_power_up c l r)) < 2 ^ 32
   /\ led1 (soc_run es (soc_power_up c l r))
      = Z.testbit (led_counter_n (soc_run es (soc_power_up c l r))) 26)
  /\ (never_locks es = true -> l = false ->
      led_counter_n (soc_run es (soc_power_up c l r)) = 0
      /\ led0 (soc_run es (soc_power_up c l r)) = false
      /\ led1 (soc_run es (soc_power_up c l r)) = false
      /\ led2 (soc_run es (soc_power_up c l r)) = false).
Proof.
  destruct (soc_run_counters_equal es (soc_power_up c l r) eq_refl)
    as [E B]; [vm_compute; split; [discriminate | reflexivity]|].
  split.
  - split; [exact E|]. split; [exact B|].
    unfold led1. now rewrite E.
  - intros N ->.
    destruct (soc_run_dark es (soc_power_up c false r) N)
      as [Z1 Z2]; try reflexivity.
    unfold led0, led1, led2. rewrite Z1, Z2, crg_soc_run.
    repeat split; try reflexivity.
    now destruct (never_locks_armed with_sdram es (power_up c false r) N)
      as (K1 & _).
Qed.

(** Counting, once released and at rest. *)
Lemma soc_run_counts (es : list event) (t : soc_state) :
  no_reset_cause es = true ->
  quiescent (crg t) = true -> sys_rst (crg t) = false ->
  led_counter_n (soc_run es t)
  = (if (count_ic es =? 0)%nat then led_counter_n t
     else wrap32 (led_counter_n t + Z.of_nat (count_ic es)))
  /\ led_counter (soc_run es t)
     = (if (count_ic es =? 0)%nat then led_counter t
        else wrap32 (led_counter t + Z.of_nat (count_ic es))).
Proof.
  revert t; induction es as [|e es IH]; intros t N Q R; [auto|].
  cbn [no_reset_cause forallb] in N. apply andb_prop in N as [Ne Nes].
  apply negb_true_iff in Ne.
  rewrite soc_run_cons.
  destruct (soc_step_counters e t) as [A1 A2].
  assert (Q' : quiescent (crg (soc_step e t)) = true)
    by (rewrite crg_soc_step; now apply step_quiescent).
  assert (R' : sys_rst (crg (soc_step e t)) = false).
  { rewrite crg_soc_step.
    apply (run_stays_released with_sdram [e] (crg t)); auto.
    cbn [no_reset_cause forallb]. now rewrite Ne. }
  destruct (IH (soc_step e t) Nes Q' R') as [B1 B2].
  rewrite B1, B2, A1, A2, R. unfold count_ic.
  destruct e; cbn [filter is_ic_tick length]; try (split; reflexivity).
  fold (count_ic es).
  destruct (count_ic es) as [|k] eqn:K; cbn [Nat.eqb].
  - split; f_equal; lia.
  - rewrite !wrap32_succ. split; f_equal; lia.
Qed.

(** X8.  Once the primary domain is released and the reset chain at rest,
    and for as long as [cpu_reset] is not asserted and lock not lost, each
    edge of the primary clock adds one to both LED counters modulo 2^32:
    after a run with [n] such edges LED 0 is on exactly when
    [(led_counter_n + n) / 2^25] is odd and LED 1 exactly when
    [(led_counter + n) / 2^26] is odd, so LED 0 changes every 2^25 edges
    and LED 1 every 2^26. *)
Theorem leds_blink_when_released (t : soc_state) (es : list event) :
  quiescent (crg t) = true -> sys_rst (crg t) = false ->
  0 <= led_counter_n t < 2 ^ 32 -> 0 <= led_counter t < 2 ^ 32 ->
  no_reset_cause es = true ->
  led_counter_n (soc_run es t)
  = wrap32 (led_counter_n t + Z.of_nat (count_ic es))
  /\ led_counter (soc_run es t)
     = wrap32 (led_counter t + Z.of_nat (count_ic es))
  /\ led0 (soc_run es t)
     = Z.odd ((led_counter_n t + Z.of_nat (count_ic es)) / 2 ^ 25)
  /\ led1 (soc_run es t)
     = Z.odd ((led_counter t + Z.of_nat (count_ic es)) / 2 ^ 26).
Proof.
  intros Q R B1 B2 N.
  destruct (soc_run_counts es t N Q R) as [A1 A2].
  assert (C1 : led_counter_n (soc_run es t)
               = wrap32 (led_counter_n t + Z.of_nat (count_ic es))).
  { rewrite A1. destruct (count_ic es); cbn [Nat.eqb]; [|reflexivity].
    unfold wrap32. rewrite Z.add_0_r, Z.mod_small; auto. }
  assert (C2 : led_counter (soc_run es t)
               = wrap32 (led_counter t + Z.of_nat (count_ic es))).
  { rewrite A2. destruct (count_ic es); cbn [Nat.eqb]; [|reflexivity].
    unfold wrap32. rewrite Z.add_0_r, Z.mod_small; auto. }
  split; [exact C1|]. split; [exact C2|].
  unfold led0, led1. rewrite C1, C2.
  split; apply testbit_wrap32; lia.
Qed.

End Leds.

Lemma led_counters_equal_and_dark_without_lock_witness :
  let es := [Clk200Tick; IcTick; SetCpuReset true; IcTick;
             SetPllLocked false; IcTick] in
  led_counter_n (soc_run false es (soc_power_up false false false)) = 0
  /\ led0 (soc_run false es (soc_power_up false false false)) = false
  /\ led1 (soc_run false es (soc_power_up false false false)) = false
  /\ led2 (soc_run false es (soc_power_up false false false)) = false.
Proof.
  apply (led_counters_equal_and_dark_without_lock false false false false
           [Clk200Tick; IcTick; SetCpuReset true; IcTick;
            SetPllLocked false; IcTick]); reflexivity.
Defined.

Lemma leds_blink_when_released_witness :
  let t := mk_soc (released false) (2 ^ 25 - 2) (2 ^ 32 - 1) in
  let es := [IcTick; Clk200Tick; SetIdelayRdy true; IcTick; IcTick] in
  led_counter_n (soc_run false es t) = 2 ^ 25 + 1
  /\ led_counter (soc_run false es t) = 2
  /\ led0 (soc_run false es t) = true
  /\ led1 (soc_run false es t) = false.
Proof.
  destruct (leds_blink_when_released false
              (mk_soc (released false) (2 ^ 25 - 2) (2 ^ 32 - 1))
              [IcTick; Clk200Tick; SetIdelayRdy true; IcTick; IcTick])
    as (A & B & C & D).
  - vm_compute. reflexivity.
  - vm_compute. reflexivity.
  - vm_compute. split; [discriminate | reflexivity].
  - vm_compute. split; [discriminate | reflexivity].
  - reflexivity.
  - cbv zeta. rewrite A, B, C, D. vm_compute. repeat split.
Defined.

(** ** The [--with-sdram] flag *)

(** X9.  The command-line flag reaches the clock generator unchanged:
    [main] turns [--with-sdram] into [integrated_main_ram_size] ([None] with
    the flag, [0x8000] without) and [BaseSoC] turns that back into the
    [with_sdram] of [_CRG], which equals the flag.  The DDR PHY is
    instantiated under the same condition as the calibration block, and a
    caller passing [integrated_main_ram_size=0] gets both as well.  So
    without the flag the release of the primary domain does not wait for
    [RDY]: the cold start releases with [RDY] low. *)
Theorem with_sdram_follows_the_flag (flag : bool) (size : option Z) :
  crg_with_sdram (main_integrated_main_ram_size flag) = flag
  /\ has_ddrphy size = crg_with_sdram size
  /\ (crg_with_sdram size = true <-> size = None \/ size = Some 0)
  /\ sys_rst (run (crg_with_sdram (main_integrated_main_ram_size false))
                (bring_up 66 66) cold) = false
  /\ sys_rst (run (crg_with_sdram (main_integrated_main_ram_size true))
                (bring_up 66 66) cold) = true.
Proof.
  split; [now destruct flag|]. split; [reflexivity|]. split.
  - unfold crg_with_sdram, py_not. destruct size as [n|].
    + split.
      * intros H. apply Z.eqb_eq in H. right. now subst.
      * intros [H|H]; [discriminate|]. injection H as ->. reflexivity.
    + split; auto.
  - vm_compute. split; reflexivity.
Qed.
